(** * Order-book side of a perp market: decoder entry point, traversal
      and watcher construction.

    A shallow embedding of [mango/orderbookside.py] and of
    [build_perp_orderbook_side_watcher] and
    [build_serum_inventory_watcher] from [mango/watchers.py].

    Layout of the development:
    - [PyDecimal]: the arithmetic of Python's [decimal.Decimal] that the
      traversal uses (multiplication, division, powers of ten), with the
      rounding of the active context;
    - errors as a sum type with a bind notation;
    - the data model ([Node], [OrderBookSide], [Order], ...);
    - [OrderBookSide.parse], [OrderBookSide.load], and the generator
      [OrderBookSide.orders] as a step function on its local state;
    - the world of watchers (observers and subscriptions held by
      reference, with what is subscribed to each publisher);
    - the properties: first those the specification states, then further
      properties of the code (error paths, cycles, the order of the
      traversal, what construction leaves in the world). *)

From Stdlib Require Import ZArith List String Ascii Bool Lia QArith.
From Stdlib Require Import DecimalString Permutation.
Import ListNotations.

Local Open Scope string_scope.
Local Open Scope list_scope.
Local Open Scope Z_scope.

(** ** Exceptions and the error monad *)

(** The exceptions the modelled code can raise: the generic [Exception]
    with its message, the [IndexError] of list indexing, the three
    signals that the default decimal context traps, and the
    [ValueError] of a value that an enumeration does not have. *)
Inductive exn : Type :=
| Exception (msg : string)
| IndexError
| DivisionByZero
| InvalidOperation
| Overflow
| ValueError.

Definition result (A : Type) : Type := (exn + A)%type.

Definition ret {A : Type} (a : A) : result A := inr a.
Definition raise {A : Type} (e : exn) : result A := inl e.
Definition bind {A B : Type} (m : result A) (f : A -> result B) : result B :=
  match m with
  | inl e => inl e
  | inr a => f a
  end.

Notation "'let*' x ':=' m 'in' k" := (bind m (fun x => k))
  (at level 10, x name, m at level 100, k at level 200).

(** ** Python's decimal arithmetic *)

Module PyDecimal.

(** A finite [Decimal]: sign, coefficient and exponent, as CPython keeps
    them ([_sign], [_int], [_exp]).  The coefficient is never negative.
    NaN and the infinities do not occur here: they are only produced by
    untrapped signals, and the three signals that would produce them are
    trapped (raised) in the default context. *)
Record Decimal : Type := mkDecimal {
  dsign : bool;
  dint : Z;
  dexp : Z
}.

(** The part of the arithmetic context that the operations read.  The
    rounding mode is the default ROUND_HALF_EVEN and [clamp] is 0. *)
Record DecimalContext : Type := mkContext {
  prec : Z;
  Emax : Z;
  Emin : Z
}.

(** [decimal.DefaultContext]. *)
Definition DefaultContext : DecimalContext :=
  {| prec := 28; Emax := 999999; Emin := -999999 |}.

Definition Etiny (ctx : DecimalContext) : Z := Emin ctx - prec ctx + 1.
Definition Etop (ctx : DecimalContext) : Z := Emax ctx - prec ctx + 1.

(** [len(str(n))] for a non-negative integer. *)
Fixpoint ndigits_fuel (fuel : nat) (n : Z) : Z :=
  match fuel with
  | O => 1
  | S fuel' => if n <? 10 then 1 else 1 + ndigits_fuel fuel' (n / 10)
  end.

Definition ndigits (n : Z) : Z := ndigits_fuel (Z.to_nat (Z.log2 n)) n.

(** [Decimal(n)] for a Python integer. *)
Definition of_int (n : Z) : Decimal :=
  {| dsign := n <? 0; dint := Z.abs n; dexp := 0 |}.

(** The rational a [Decimal] denotes. *)
Definition to_Q (d : Decimal) : Q :=
  let m := if dsign d then - dint d else dint d in
  if 0 <=? dexp d
  then inject_Z (m * 10 ^ dexp d)
  else Qmake m (Z.to_pos (10 ^ (- dexp d))).

(** [Decimal.__eq__]: comparison by value. *)
Definition dec_eqb (a b : Decimal) : bool := Qeq_bool (to_Q a) (to_Q b).

(** [_round_half_even] applied to a coefficient split into the kept part
    [q] and the dropped part [r] of [drop] digits: 1 to round up, 0 when
    nothing is lost, -1 to truncate. *)
Definition round_half_even (q r drop : Z) : Z :=
  let half := 5 * 10 ^ (drop - 1) in
  if (r =? half) && Z.even q then -1
  else if half <=? r then 1
  else if r =? 0 then 0
  else -1.

(** [Decimal._fix]: bring a result back into the context's precision and
    exponent range. *)
Definition fix_ (ctx : DecimalContext) (d : Decimal) : result Decimal :=
  if dint d =? 0 then
    let new_exp := Z.min (Z.max (dexp d) (Etiny ctx)) (Emax ctx) in
    ret {| dsign := dsign d; dint := 0; dexp := new_exp |}
  else
    let exp_min := ndigits (dint d) + dexp d - prec ctx in
    if Etop ctx <? exp_min then raise Overflow
    else
      let exp_min := if exp_min <? Etiny ctx then Etiny ctx else exp_min in
      if dexp d <? exp_min then
        let digits := ndigits (dint d) + dexp d - exp_min in
        let '(c, e) := if digits <? 0 then (1, exp_min - 1)
                       else (dint d, dexp d) in
        let drop := exp_min - e in
        let q := c / 10 ^ drop in
        let r := c mod 10 ^ drop in
        let changed := round_half_even q r drop in
        let '(coeff, exp_min) :=
          if 0 <? changed then
            if prec ctx <? ndigits (q + 1)
            then ((q + 1) / 10, exp_min + 1)
            else (q + 1, exp_min)
          else (q, exp_min) in
        if Etop ctx <? exp_min then raise Overflow
        else ret {| dsign := dsign d; dint := coeff; dexp := exp_min |}
      else ret d.

(** [Decimal.__mul__]. *)
Definition mul (ctx : DecimalContext) (a b : Decimal) : result Decimal :=
  fix_ ctx {| dsign := xorb (dsign a) (dsign b);
              dint := dint a * dint b;
              dexp := dexp a + dexp b |}.

(** The loop of [__truediv__] that removes trailing zeros of an exact
    quotient while the exponent is below the ideal one. *)
Fixpoint strip_zeros (fuel : nat) (coeff exp ideal_exp : Z) : Z * Z :=
  match fuel with
  | O => (coeff, exp)
  | S fuel' =>
      if (exp <? ideal_exp) && (coeff mod 10 =? 0)
      then strip_zeros fuel' (coeff / 10) (exp + 1) ideal_exp
      else (coeff, exp)
  end.

(** [Decimal.__truediv__]. *)
Definition div (ctx : DecimalContext) (a b : Decimal) : result Decimal :=
  let sign := xorb (dsign a) (dsign b) in
  if dint b =? 0 then
    if dint a =? 0 then raise InvalidOperation else raise DivisionByZero
  else if dint a =? 0 then
    fix_ ctx {| dsign := sign; dint := 0; dexp := dexp a - dexp b |}
  else
    let shift := ndigits (dint b) - ndigits (dint a) + prec ctx + 1 in
    let exp := dexp a - dexp b - shift in
    let '(coeff, remainder) :=
      if 0 <=? shift
      then Z.div_eucl (dint a * 10 ^ shift) (dint b)
      else Z.div_eucl (dint a) (dint b * 10 ^ (- shift)) in
    let '(coeff, exp) :=
      if remainder =? 0
      then strip_zeros (Z.to_nat shift) coeff exp (dexp a - dexp b)
      else (if coeff mod 5 =? 0 then coeff + 1 else coeff, exp) in
    fix_ ctx {| dsign := sign; dint := coeff; dexp := exp |}.

(** [Decimal(10) ** n] for an integer [n] ([__pow__] specialised to the
    base ten and an integral exponent, the only use in this program):
    the early exit for a zero exponent, the crude overflow and underflow
    test, and otherwise the exact result of [_power_exact]. *)
Definition pow10 (ctx : DecimalContext) (n : Z) : result Decimal :=
  if n =? 0 then ret {| dsign := false; dint := 1; dexp := 0 |}
  else
    let bound := ndigits (Z.abs n) - 1 in
    if 0 <? n then
      if ndigits (Emax ctx) <=? bound
      then fix_ ctx {| dsign := false; dint := 1; dexp := Emax ctx + 1 |}
      else
        let zeros := Z.min n (prec ctx) in
        fix_ ctx {| dsign := false; dint := 10 ^ zeros; dexp := n - zeros |}
    else
      if ndigits (- Etiny ctx) <=? bound
      then fix_ ctx {| dsign := false; dint := 1; dexp := Etiny ctx - 1 |}
      else fix_ ctx {| dsign := false; dint := 1; dexp := n |}.

End PyDecimal.

Import PyDecimal.

(** ** Python lists *)

(** [l[i]] on a Python list: indices from [-len(l)] to [len(l) - 1] are
    valid, negative ones count from the end, and every other index
    raises [IndexError]. *)
Definition getitem {A : Type} (l : list A) (i : Z) : result A :=
  let n := Z.of_nat (List.length l) in
  let j := if i <? 0 then n + i else i in
  if (0 <=? j) && (j <? n)
  then match nth_error l (Z.to_nat j) with
       | Some a => ret a
       | None => raise IndexError
       end
  else raise IndexError.

(** [l.pop()]: the last element together with the list that remains, or
    [None] on the empty list (the caller tests [len(l) > 0] first). *)
Definition pop {A : Type} (l : list A) : option (list A * A) :=
  match rev l with
  | [] => None
  | x :: r => Some (rev r, x)
  end.

(** [str(n)] for a length. *)
Definition str_of_nat (n : nat) : string :=
  NilEmpty.string_of_uint (Nat.to_uint n).

(** ** Data model *)

(** A [PublicKey], identified with its base-58 text, which is what the
    messages print. *)
Definition PublicKey : Type := string.

Inductive Side : Type := BUY | SELL.

Definition Side_eqb (a b : Side) : bool :=
  match a, b with
  | BUY, BUY | SELL, SELL => true
  | _, _ => false
  end.

Inductive OrderType : Type := UNKNOWN | LIMIT | IOC | POST_ONLY.

Record Order : Type := mkOrder {
  id : Z;
  client_order_id : Z;
  owner : PublicKey;
  side : Side;
  price : Decimal;
  quantity : Decimal;
  order_type : OrderType
}.

Inductive Version : Type := UNSPECIFIED | V1 | V2 | V3 | V4 | V5.

(** Modelled from the spec: the enumeration [Version] is not part of the
    given sources.  [UNSPECIFIED] has the value 0 and [V1] to [V5] the
    values 1 to 5; [Version(n)] is the member with the value [n] and
    raises [ValueError] when there is none. *)
Definition Version_of_int (n : Z) : result Version :=
  if n =? 0 then ret UNSPECIFIED
  else if n =? 1 then ret V1
  else if n =? 2 then ret V2
  else if n =? 3 then ret V3
  else if n =? 4 then ret V4
  else if n =? 5 then ret V5
  else raise ValueError.

Record Token : Type := mkToken {
  symbol : string;
  decimals : Z
}.

(** The market description that supplies the scaling: the two tokens and
    the two lot sizes, and the addresses of the two sides of the book. *)
Record PerpMarketDetails : Type := mkPerpMarketDetails {
  bids : PublicKey;
  asks : PublicKey;
  base_token : Token;
  quote_token : Token;
  base_lot_size : Decimal;
  quote_lot_size : Decimal
}.

Record AccountInfo : Type := mkAccountInfo {
  address : PublicKey;
  data : list Byte.byte
}.

Module layouts.

(** Modelled from the spec: [layouts.DATA_TYPE] is not part of the given
    sources.  The header carries a kind discriminant with the two values
    the traversal distinguishes, bids and asks; every other tag is kept
    as it is. *)
Inductive DATA_TYPE : Type :=
| Bids
| Asks
| OtherDataType (tag : Z).

Definition DATA_TYPE_eqb (a b : DATA_TYPE) : bool :=
  match a, b with
  | Bids, Bids | Asks, Asks => true
  | OtherDataType x, OtherDataType y => x =? y
  | _, _ => false
  end.

Record METADATA : Type := mkMETADATA {
  data_type : DATA_TYPE;
  version : Z;
  is_initialized : bool
}.

(** Modelled from the spec: the node variants of the slab.  [type_name]
    is ["leaf"] for [Leaf], ["inner"] for [Inner], and another name for
    the two remaining variants. *)
Inductive Node : Type :=
| Uninitialized
| Inner (children : Z * Z)
| Leaf (key_price : Decimal) (key_order_id : Z) (quantity : Decimal)
       (owner : PublicKey) (client_order_id : Z)
| Free (next : Z).

(** What [layouts.ORDERBOOK_SIDE.parse] returns. *)
Record Container : Type := mkContainer {
  meta_data : METADATA;
  bump_index : Z;
  free_list_len : Z;
  free_list_head : Z;
  root_node : Z;
  leaf_count : Z;
  nodes : list Node
}.

(** The schema [layouts.ORDERBOOK_SIDE] itself is not part of the given
    sources; the code reads two things from it, its fixed size and its
    decoder, and it is taken as this pair. *)
Record Schema : Type := mkSchema {
  sizeof : nat;
  parse : list Byte.byte -> result Container
}.

End layouts.

(** Modelled from the spec: [Metadata] and [Metadata.from_layout] are
    not part of the given sources.  The header carries a schema version
    tag, the kind discriminant and an initialisation flag (sections 3
    and 6).  [from_layout] keeps the kind and the flag and turns the raw
    tag into the version one above it, [Version(layout.version + 1)],
    which raises [ValueError] for a raw tag of 5 or more. *)
Record Metadata : Type := mkMetadata {
  data_type : layouts.DATA_TYPE;
  md_version : Version;
  is_initialized : bool
}.

Definition Metadata_from_layout (l : layouts.METADATA) : result Metadata :=
  let* version := Version_of_int (layouts.version l + 1) in
  ret {| data_type := layouts.data_type l;
         md_version := version;
         is_initialized := layouts.is_initialized l |}.

(** The client side of the ledger: what a synchronous fetch of an
    address returns at the time of the call, the raw bytes of the
    account or nothing. *)
Record Context : Type := mkContext_ {
  accounts : PublicKey -> option (list Byte.byte)
}.

(** Modelled from the spec: [AccountInfo.load] is the synchronous
    [fetch(address) -> bytes | not_found]; it returns [None] when there
    is no data at the address. *)
Definition AccountInfo_load (context : Context) (addr : PublicKey)
  : option AccountInfo :=
  match accounts context addr with
  | Some bytes => Some {| address := addr; data := bytes |}
  | None => None
  end.

(** ** The class [OrderBookSide] *)

Module OrderBookSide.

Record t : Type := mk {
  account_info : AccountInfo;
  version : Version;
  meta_data : Metadata;
  perp_market_details : PerpMarketDetails;
  bump_index : Z;
  free_list_len : Z;
  free_list_head : Z;
  root_node : Z;
  leaf_count : Z;
  nodes : list layouts.Node
}.

Definition from_layout (layout : layouts.Container)
    (account_info : AccountInfo) (version : Version)
    (perp_market_details : PerpMarketDetails) : result t :=
  let* meta_data := Metadata_from_layout (layouts.meta_data layout) in
  let bump_index := layouts.bump_index layout in
  let free_list_len := layouts.free_list_len layout in
  let free_list_head := layouts.free_list_head layout in
  let root_node := layouts.root_node layout in
  let leaf_count := layouts.leaf_count layout in
  let nodes := layouts.nodes layout in
  ret (mk account_info version meta_data perp_market_details bump_index
          free_list_len free_list_head root_node leaf_count nodes).

(** The message of the exception [parse] raises. *)
Definition size_mismatch_message (actual expected : nat) : string :=
  ("OrderBookSide data length (" ++ str_of_nat actual
   ++ ") does not match expected size (" ++ str_of_nat expected ++ ")")%string.

Definition parse (schema : layouts.Schema) (context : Context)
    (account_info : AccountInfo) (perp_market_details : PerpMarketDetails)
  : result t :=
  let data := data account_info in
  if negb (List.length data =? layouts.sizeof schema)%nat then
    raise (Exception (size_mismatch_message (List.length data)
                                            (layouts.sizeof schema)))
  else
    let* layout := layouts.parse schema data in
    from_layout layout account_info V1 perp_market_details.

Definition not_found_message (addr : PublicKey) : string :=
  ("OrderBookSide account not found at address '" ++ addr ++ "'")%string.

Definition load (schema : layouts.Schema) (context : Context)
    (addr : PublicKey) (perp_market_details : PerpMarketDetails)
  : result t :=
  match AccountInfo_load context addr with
  | None => raise (Exception (not_found_message addr))
  | Some account_info =>
      parse schema context account_info perp_market_details
  end.

(** *** The generator [orders] *)

(** The body of the [leaf] branch up to the construction of the
    [Order].  Every decimal operation can raise, in the order in which
    the statements evaluate them. *)
Definition leaf_order (dctx : DecimalContext) (self : t) (order_side : Side)
    (key_price : Decimal) (key_order_id : Z) (quantity : Decimal)
    (owner : PublicKey) (client_order_id : Z) : result Order :=
  let price := key_price in
  let details := perp_market_details self in
  let decimals_differential :=
    decimals (base_token details) - decimals (quote_token details) in
  let* native_to_ui := pow10 dctx decimals_differential in
  let quote_lot_size := quote_lot_size details in
  let base_lot_size := base_lot_size details in
  let* lots := div dctx quote_lot_size base_lot_size in
  let* scaled := mul dctx price lots in
  let* actual_price := mul dctx scaled native_to_ui in
  let* base_factor := pow10 dctx (decimals (base_token details)) in
  let* lot_quantity := mul dctx quantity base_lot_size in
  let* actual_quantity := div dctx lot_quantity base_factor in
  ret (mkOrder key_order_id client_order_id owner order_side
               actual_price actual_quantity UNKNOWN).

(** A generator object made by a call of [orders]: its body has not
    started, or it is suspended inside the loop with its two locals, or
    it has returned or raised. *)
Inductive generator : Type :=
| Created (self : t)
| Suspended (self : t) (order_side : Side) (stack : list Z)
| Closed.

(** What one piece of the body does: it yields an order, it completes a
    loop iteration without yielding, it returns, or it raises. *)
Inductive signal : Type :=
| Yield (o : Order)
| Continue
| Return
| Raise (e : exn).

(** One piece of the body of [orders]: from the call to the loop head,
    or one iteration of the [while] loop. *)
Definition resume (dctx : DecimalContext) (g : generator)
  : signal * generator :=
  match g with
  | Created self =>
      if leaf_count self =? 0 then (Return, Closed)
      else
        let order_side :=
          if layouts.DATA_TYPE_eqb (data_type (meta_data self)) layouts.Bids
          then BUY else SELL in
        (Continue, Suspended self order_side [root_node self])
  | Suspended self order_side stack =>
      match pop stack with
      | None => (Return, Closed)
      | Some (stack, index) =>
          match getitem (nodes self) index with
          | inl e => (Raise e, Closed)
          | inr node =>
              match node with
              | layouts.Leaf key_price key_order_id quantity owner
                             client_order_id =>
                  match leaf_order dctx self order_side key_price
                          key_order_id quantity owner client_order_id with
                  | inl e => (Raise e, Closed)
                  | inr o => (Yield o, Suspended self order_side stack)
                  end
              | layouts.Inner (child0, child1) =>
                  if Side_eqb order_side BUY
                  then (Continue,
                        Suspended self order_side (child0 :: child1 :: stack))
                  else (Continue,
                        Suspended self order_side (child1 :: child0 :: stack))
              | _ => (Continue, Suspended self order_side stack)
              end
          end
      end
  | Closed => (Return, Closed)
  end.

(** [self.orders()]: calling a generator function runs none of its
    body. *)
Definition orders (self : t) : generator := Created self.

(** How the iteration of a generator ended within the steps allowed. *)
Inductive outcome : Type :=
| Finished
| Failed (e : exn)
| Unfinished.

(** Iterating a generator to its end, as [list(g)] or a [for] loop
    does: the orders yielded, in order, and how the iteration ended. *)
Fixpoint drain (dctx : DecimalContext) (fuel : nat) (g : generator)
  : list Order * outcome :=
  match fuel with
  | O => ([], Unfinished)
  | S fuel' =>
      match resume dctx g with
      | (Yield o, g') =>
          let '(os, out) := drain dctx fuel' g' in (o :: os, out)
      | (Continue, g') => drain dctx fuel' g'
      | (Return, _) => ([], Finished)
      | (Raise e, _) => ([], Failed e)
      end
  end.

(** The generator after [fuel] pieces of its body. *)
Fixpoint advance (dctx : DecimalContext) (fuel : nat) (g : generator)
  : generator :=
  match fuel with
  | O => g
  | S fuel' => advance dctx fuel' (snd (resume dctx g))
  end.

(** The index the next loop iteration pops, if there is one. *)
Definition next_index (g : generator) : option Z :=
  match g with
  | Suspended _ _ stack =>
      match pop stack with
      | Some (_, index) => Some index
      | None => None
      end
  | _ => None
  end.

(** The indices popped from the stack, in the order of the visits. *)
Fixpoint visits (dctx : DecimalContext) (fuel : nat) (g : generator)
  : list Z :=
  match fuel with
  | O => []
  | S fuel' =>
      match next_index g with
      | Some index => index :: visits dctx fuel' (snd (resume dctx g))
      | None =>
          match g with
          | Created _ => visits dctx fuel' (snd (resume dctx g))
          | _ => []
          end
      end
  end.

End OrderBookSide.

(** ** Watchers *)

Inductive OrderBookSideType : Type := BIDS | ASKS.

Definition OrderBookSideType_eqb (a b : OrderBookSideType) : bool :=
  match a, b with
  | BIDS, BIDS | ASKS, ASKS => true
  | _, _ => false
  end.

Record PerpMarket : Type := mkPerpMarket {
  market_symbol : string;
  underlying_perp_market : PerpMarketDetails
}.

(** Objects are held by reference: a reference is a position in the
    store of its class. *)
Definition ref : Type := nat.

(** Replace the object at a position of a store; a position outside the
    store leaves it as it is. *)
Fixpoint store_set {A : Type} (l : list A) (i : nat) (a : A) : list A :=
  match l, i with
  | [], _ => []
  | _ :: l', O => a :: l'
  | x :: l', S i' => x :: store_set l' i' a
  end.

(** What can be subscribed to the publisher of a subscription: an
    observer, or the callback of the health check for one of its
    names. *)
Inductive Subscriber : Type :=
| Observer (observer : ref)
| HealthCheckPing (name : string).

(** Modelled from the spec: [WebSocketAccountSubscription] binds the
    change stream of an address to a decode function and publishes each
    decoded item to the subscribers of its publisher.  The decode
    function of the order book side watcher is a lambda whose only free
    variable besides the context is the market. *)
Record WebSocketAccountSubscription : Type := mkSubscription {
  sub_address : PublicKey;
  sub_market : PerpMarketDetails;
  publisher_subscribers : list Subscriber
}.

Definition could_not_find_message (addr : PublicKey) : string :=
  ("Could not find perp order book side at address " ++ addr ++ ".")%string.

Section perp_orderbook_side_watcher.

(** [watchers.py] imports a class [PerpOrderBookSide] from
    [mango/orderbookside.py], which as given defines no class of that
    name.  The builder calls its static method [parse] and, on the
    result, the method [orders]; both are taken as parameters, with the
    type of the sides and the type of what [orders] returns.  Either
    call may raise. *)
Variable PerpOrderBookSide : Type.

Variable item : Type.

Variable PerpOrderBookSide_parse
  : Context -> AccountInfo -> PerpMarketDetails -> result PerpOrderBookSide.

Variable PerpOrderBookSide_orders : PerpOrderBookSide -> result item.

(** Modelled from the spec: [LatestItemObserverSubscriber] is the
    single-slot cell of the latest item.  Its constructor stores the
    initial item, [on_next] replaces it, and reading [latest] leaves it
    as it is. *)
Record LatestItemObserverSubscriber : Type := mkObserver {
  latest : item
}.

(** The mutable objects the watcher code works on: the observers it
    allocates, the subscriptions, the subscription manager (the
    references added to it), the health check (the names registered,
    each with its publisher, a publisher being identified with its
    subscription) and the notifications the health check has recorded,
    by name, the latest last. *)
Record World : Type := mkWorld {
  observers : list LatestItemObserverSubscriber;
  subscriptions : list WebSocketAccountSubscription;
  manager : list ref;
  health_check : list (string * ref);
  pings : list string
}.

Definition new_observer (w : World) (initial : item) : ref * World :=
  (List.length (observers w),
   mkWorld (observers w ++ [mkObserver initial])
           (subscriptions w) (manager w) (health_check w) (pings w)).

Definition new_subscription (w : World) (addr : PublicKey)
    (market : PerpMarketDetails) : ref * World :=
  (List.length (subscriptions w),
   mkWorld (observers w)
           (subscriptions w ++ [mkSubscription addr market []])
           (manager w) (health_check w) (pings w)).

(** Modelled from the spec: [WebSocketSubscriptionManager.add] records
    the subscription; the manager later hands to it the notifications
    for its address. *)
Definition manager_add (w : World) (sub : ref) : World :=
  mkWorld (observers w) (subscriptions w) (manager w ++ [sub])
          (health_check w) (pings w).

(** [publisher.subscribe(subscriber)]: the subscriber joins the
    subscribers of the publisher, after those already there. *)
Definition publisher_subscribe (w : World) (sub : ref) (s : Subscriber)
  : World :=
  match nth_error (subscriptions w) sub with
  | Some x =>
      mkWorld (observers w)
        (store_set (subscriptions w) sub
           (mkSubscription (sub_address x) (sub_market x)
                           (publisher_subscribers x ++ [s])))
        (manager w) (health_check w) (pings w)
  | None => w
  end.

(** Modelled from the spec: [HealthCheck.add(name, publisher)]
    registers the feed under the name and subscribes the registry to
    the publisher, so that it records every notification of the feed
    (section 4.5: the registry records "a notification was received"
    events per registered feed, as a passive observer). *)
Definition health_check_add (w : World) (name : string) (publisher : ref)
  : World :=
  let w := publisher_subscribe w publisher (HealthCheckPing name) in
  mkWorld (observers w) (subscriptions w) (manager w)
          (health_check w ++ [(name, publisher)]) (pings w).

(** [build_perp_orderbook_side_watcher].  The result is the reference
    of the observer, or the exception raised, and the world as the call
    leaves it. *)
Definition build_perp_orderbook_side_watcher (context : Context) (w : World)
    (perp_market : PerpMarket) (side : OrderBookSideType)
  : result ref * World :=
  let orderbook_address :=
    if OrderBookSideType_eqb side BIDS
    then bids (underlying_perp_market perp_market)
    else asks (underlying_perp_market perp_market) in
  match AccountInfo_load context orderbook_address with
  | None => (raise (Exception (could_not_find_message orderbook_address)), w)
  | Some orderbook_side_info =>
      match PerpOrderBookSide_parse context orderbook_side_info
              (underlying_perp_market perp_market) with
      | inl e => (raise e, w)
      | inr initial_orderbook_side =>
          let '(orders_subscription, w) :=
            new_subscription w orderbook_address
                             (underlying_perp_market perp_market) in
          let w := manager_add w orders_subscription in
          match PerpOrderBookSide_orders initial_orderbook_side with
          | inl e => (raise e, w)
          | inr initial_orders =>
              let '(latest_orders_observer, w) :=
                new_observer w initial_orders in
              let w :=
                publisher_subscribe w orders_subscription
                                    (Observer latest_orders_observer) in
              let w :=
                health_check_add w "orderbook_side_subscription"
                                 orders_subscription in
              (ret latest_orders_observer, w)
          end
      end
  end.

(** [watcher.latest], the item the observer holds.  Reading it changes
    nothing in the world. *)
Definition watcher_latest (w : World) (watcher : ref) : option item :=
  match nth_error (observers w) watcher with
  | Some o => Some (latest o)
  | None => None
  end.

(** What a subscriber does with an item published to it: an observer
    takes it as its latest item, the health check records a
    notification under the name. *)
Definition on_next (w : World) (s : Subscriber) (x : item) : World :=
  match s with
  | Observer o =>
      mkWorld (store_set (observers w) o (mkObserver x)) (subscriptions w)
              (manager w) (health_check w) (pings w)
  | HealthCheckPing name =>
      mkWorld (observers w) (subscriptions w) (manager w) (health_check w)
              (pings w ++ [name])
  end.

Definition publish (w : World) (subscribers : list Subscriber) (x : item)
  : World :=
  fold_left (fun w s => on_next w s x) subscribers w.

(** The decode function the builder gives to its subscription:
    [lambda account_info: PerpOrderBookSide.parse(context, account_info,
    perp_market.underlying_perp_market).orders()]. *)
Definition decode_orders (context : Context) (market : PerpMarketDetails)
    (account_info : AccountInfo) : result item :=
  let* side := PerpOrderBookSide_parse context account_info market in
  PerpOrderBookSide_orders side.

(** Modelled from the spec: the processing of one change notification
    by a subscription.  The payload is decoded with the subscription's
    decode function and the item is published to the subscribers of its
    publisher, in the order in which they subscribed; a payload that
    fails to decode is dropped and nothing is published. *)
Definition notify (context : Context) (w : World) (sub : ref)
    (payload : AccountInfo) : World :=
  match nth_error (subscriptions w) sub with
  | Some s =>
      match decode_orders context (sub_market s) payload with
      | inl _ => w
      | inr x => publish w (publisher_subscribers s) x
      end
  | None => w
  end.

(** Modelled from the spec: the subscription manager hands a change of
    the account at [addr] to the subscriptions added to it for that
    address, in the order in which they were added. *)
Definition deliver (context : Context) (w : World) (addr : PublicKey)
    (bytes : list Byte.byte) : World :=
  fold_left
    (fun w sub =>
       match nth_error (subscriptions w) sub with
       | Some s =>
           if String.eqb (sub_address s) addr
           then notify context w sub (mkAccountInfo addr bytes)
           else w
       | None => w
       end)
    (manager w) w.

(** The processing of a sequence of notifications, each an address and
    the new bytes of the account. *)
Definition deliver_all (context : Context) (w : World)
    (notifications : list (PublicKey * list Byte.byte)) : World :=
  fold_left (fun w n => deliver context w (fst n) (snd n)) notifications w.

(** A world without dangling observers: every observer that a
    publisher lists has been allocated. *)
Definition observers_allocated (w : World) : Prop :=
  forall s o,
    In s (subscriptions w) -> In (Observer o) (publisher_subscribers s) ->
    (o < List.length (observers w))%nat.

(** What a step of the world leaves alone for a watcher: the
    subscriptions and the item the watcher holds. *)
Definition keeps (watcher : ref) (w w' : World) : Prop :=
  subscriptions w' = subscriptions w
  /\ nth_error (observers w') watcher = nth_error (observers w) watcher.

End perp_orderbook_side_watcher.

Arguments mkObserver {item}.
Arguments latest {item}.
Arguments mkWorld {item}.
Arguments observers {item}.
Arguments subscriptions {item}.
Arguments manager {item}.
Arguments health_check {item}.
Arguments pings {item}.
Arguments new_observer {item}.
Arguments new_subscription {item}.
Arguments manager_add {item}.
Arguments publisher_subscribe {item}.
Arguments health_check_add {item}.
Arguments build_perp_orderbook_side_watcher {PerpOrderBookSide item}.
Arguments watcher_latest {item}.
Arguments on_next {item}.
Arguments publish {item}.
Arguments decode_orders {PerpOrderBookSide item}.
Arguments notify {PerpOrderBookSide item}.
Arguments deliver {PerpOrderBookSide item}.
Arguments deliver_all {PerpOrderBookSide item}.
Arguments observers_allocated {item}.
Arguments keeps {item}.

(** ** Well-formed slabs *)

(** The unfolding of the node graph below an index into a finite tree.
    [TOther] stands for a slot that holds neither a leaf nor an inner
    node. *)
Inductive tree : Type :=
| TLeaf (index : Z)
| TInner (index : Z) (child0 child1 : tree)
| TOther (index : Z).

Definition tree_index (t : tree) : Z :=
  match t with
  | TLeaf i | TInner i _ _ | TOther i => i
  end.

Fixpoint tree_size (t : tree) : nat :=
  match t with
  | TInner _ l r => S (tree_size l + tree_size r)
  | _ => 1%nat
  end.

Fixpoint tree_indices (t : tree) : list Z :=
  match t with
  | TInner i l r => i :: tree_indices l ++ tree_indices r
  | TLeaf i | TOther i => [i]
  end.

(** [unfolds nodes t]: every index of [t] is in range of [nodes], the
    slot there has the variant [t] says, and the children of an inner
    slot are the roots of the two subtrees.  A slab with a cycle below
    the root has no such [t]. *)
Fixpoint unfolds (nodes : list layouts.Node) (t : tree) : bool :=
  match t with
  | TLeaf i =>
      match getitem nodes i with
      | inr (layouts.Leaf _ _ _ _ _) => true
      | _ => false
      end
  | TInner i l r =>
      match getitem nodes i with
      | inr (layouts.Inner (c0, c1)) =>
          (c0 =? tree_index l) && (c1 =? tree_index r)
          && unfolds nodes l && unfolds nodes r
      | _ => false
      end
  | TOther i =>
      match getitem nodes i with
      | inr layouts.Uninitialized | inr (layouts.Free _) => true
      | _ => false
      end
  end.

(** The keys of the leaves of a tree, from [child0] to [child1]: the
    native price and the order id. *)
Fixpoint tree_keys (nodes : list layouts.Node) (t : tree) : list (Q * Z) :=
  match t with
  | TLeaf i =>
      match getitem nodes i with
      | inr (layouts.Leaf key_price key_order_id _ _ _) =>
          [(to_Q key_price, key_order_id)]
      | _ => []
      end
  | TInner _ l r => tree_keys nodes l ++ tree_keys nodes r
  | TOther _ => []
  end.

(** Keys compare by price and then by order id. *)
Definition key_ltb (a b : Q * Z) : bool :=
  (Qle_bool (fst a) (fst b) && negb (Qeq_bool (fst a) (fst b)))
  || (Qeq_bool (fst a) (fst b) && (snd a <? snd b)).

(** [child0] of every inner node roots the lesser-keyed subtree. *)
Fixpoint key_ordered (nodes : list layouts.Node) (t : tree) : bool :=
  match t with
  | TInner _ l r =>
      forallb (fun a => forallb (key_ltb a) (tree_keys nodes r))
              (tree_keys nodes l)
      && key_ordered nodes l && key_ordered nodes r
  | _ => true
  end.

Fixpoint only_leaves_and_inner (t : tree) : bool :=
  match t with
  | TLeaf _ => true
  | TInner _ l r => only_leaves_and_inner l && only_leaves_and_inner r
  | TOther _ => false
  end.

(** A valid decoded side with the tree [t] below its root: the slab
    unfolds into [t] from [root_node], [t] has leaves and inner nodes
    only and is ordered by key, its indices are those of allocated
    slots, and [leaf_count] counts its leaves. *)
Definition valid_side (self : OrderBookSide.t) (t : tree) : bool :=
  (tree_index t =? OrderBookSide.root_node self)
  && unfolds (OrderBookSide.nodes self) t
  && only_leaves_and_inner t
  && key_ordered (OrderBookSide.nodes self) t
  && forallb (fun i => (0 <=? i) && (i <? OrderBookSide.bump_index self))
             (tree_indices t)
  && (Z.of_nat (List.length (tree_keys (OrderBookSide.nodes self) t))
      =? OrderBookSide.leaf_count self).

(** A sequence in which each element is related to the next. *)
Fixpoint chain {A : Type} (rel : A -> A -> bool) (l : list A) : bool :=
  match l with
  | a :: (b :: _) as l' => rel a b && chain rel l'
  | _ => true
  end.

Definition non_increasing (l : list Q) : bool :=
  chain (fun a b => Qle_bool b a) l.

Definition non_decreasing (l : list Q) : bool :=
  chain (fun a b => Qle_bool a b) l.

(** The prices of a sequence of orders, as rationals. *)
Definition prices (os : list Order) : list Q :=
  map (fun o => to_Q (price o)) os.

(** The position of the first occurrence of an index in a sequence of
    visits. *)
Fixpoint position (l : list Z) (a : Z) : option nat :=
  match l with
  | [] => None
  | x :: l' =>
      if x =? a then Some O
      else match position l' a with
           | Some n => Some (S n)
           | None => None
           end
  end.

(** [a] is visited, and [b] is not visited before it. *)
Definition visited_before (l : list Z) (a b : Z) : bool :=
  match position l a, position l b with
  | Some n, Some m => (n <? m)%nat
  | Some _, None => true
  | None, _ => false
  end.

(** The order of a depth-first traversal on a sequence of visits: at
    every inner node the whole subtree that the side takes first is
    visited before the whole other subtree, [child1] first for [BUY]
    and [child0] first for [SELL]. *)
Fixpoint subtrees_in_order (order_side : Side) (vis : list Z) (t : tree)
  : bool :=
  match t with
  | TInner _ l r =>
      let '(first, second) :=
        if Side_eqb order_side BUY then (r, l) else (l, r) in
      forallb (fun a => forallb (visited_before vis a) (tree_indices second))
              (tree_indices first)
      && subtrees_in_order order_side vis l
      && subtrees_in_order order_side vis r
  | _ => true
  end.

(** The order of visits that the depth-first traversal of the
    specification produces on a tree: a node, then the whole subtree
    that the side takes first, then the whole other subtree. *)
Fixpoint depth_first (order_side : Side) (t : tree) : list Z :=
  match t with
  | TInner i l r =>
      i :: (if Side_eqb order_side BUY
            then depth_first order_side r ++ depth_first order_side l
            else depth_first order_side l ++ depth_first order_side r)
  | TLeaf i | TOther i => [i]
  end.

(** The keys of the leaves among the slots of a sequence of visits, in
    the order of the visits. *)
Definition keys_at (nodes : list layouts.Node) (vis : list Z)
  : list (Q * Z) :=
  flat_map (fun i =>
              match getitem nodes i with
              | inr (layouts.Leaf key_price key_order_id _ _ _) =>
                  [(to_Q key_price, key_order_id)]
              | _ => []
              end) vis.

(** ** The scaling in exact arithmetic *)

(** The two formulas of the scaling over the rationals, with no
    rounding anywhere. *)
Definition exact_price (native_price : Q) (details : PerpMarketDetails) : Q :=
  (native_price
   * (to_Q (quote_lot_size details) / to_Q (base_lot_size details))
   * Qpower 10 (decimals (base_token details)
                - decimals (quote_token details)))%Q.

Definition exact_quantity (native_quantity : Q) (details : PerpMarketDetails)
  : Q :=
  (native_quantity * to_Q (base_lot_size details)
   / Qpower 10 (decimals (base_token details)))%Q.

(** ** Generators of one iteration *)

(** The generators that an iteration of [self.orders()] goes through. *)
Definition iterates (self : OrderBookSide.t) (g : OrderBookSide.generator) : Prop :=
  match g with
  | OrderBookSide.Created s => s = self
  | OrderBookSide.Suspended s sd _ =>
      s = self
      /\ sd = (if layouts.DATA_TYPE_eqb (data_type (OrderBookSide.meta_data self))
                                         layouts.Bids
               then BUY else SELL)
  | OrderBookSide.Closed => True
  end.

(** ** Concrete instances *)

(** A reduced layout with one-byte fields, to run the decoder entry
    point on concrete buffers: a header of seven bytes (kind, version
    tag, bump index, free list length and head, root, leaf count) and
    [capacity] slots of four bytes (tag and three payload bytes).  Tag 1
    is an inner node, tag 2 a leaf, tag 3 a free slot and any other tag
    an uninitialized slot. *)
Module reduced_layout.

Definition u8 (bytes : list Byte.byte) (offset : nat) : Z :=
  Z.of_N (Byte.to_N (nth offset bytes Byte.x00)).

Definition node_at (bytes : list Byte.byte) (offset : nat) : layouts.Node :=
  let tag := u8 bytes offset in
  let a := u8 bytes (offset + 1) in
  let b := u8 bytes (offset + 2) in
  let c := u8 bytes (offset + 3) in
  if tag =? 1 then layouts.Inner (a, b)
  else if tag =? 2 then layouts.Leaf (of_int a) b (of_int c) "owner" 0
  else if tag =? 3 then layouts.Free a
  else layouts.Uninitialized.

Definition kind_of (tag : Z) : layouts.DATA_TYPE :=
  if tag =? 5 then layouts.Bids
  else if tag =? 6 then layouts.Asks
  else layouts.OtherDataType tag.

Definition decode (capacity : nat) (bytes : list Byte.byte)
  : layouts.Container :=
  {| layouts.meta_data :=
       {| layouts.data_type := kind_of (u8 bytes 0);
          layouts.version := u8 bytes 1;
          layouts.is_initialized := true |};
     layouts.bump_index := u8 bytes 2;
     layouts.free_list_len := u8 bytes 3;
     layouts.free_list_head := u8 bytes 4;
     layouts.root_node := u8 bytes 5;
     layouts.leaf_count := u8 bytes 6;
     layouts.nodes :=
       map (fun k => node_at bytes (7 + 4 * k)) (seq 0 capacity) |}.

Definition schema (capacity : nat) : layouts.Schema :=
  {| layouts.sizeof := 7 + 4 * capacity;
     layouts.parse := fun bytes => ret (decode capacity bytes) |}.

End reduced_layout.

Module examples.

Definition token (d : Z) : Token := {| symbol := "TOKEN"; decimals := d |}.

Definition details (base_lot quote_lot base_decimals quote_decimals : Z)
  : PerpMarketDetails :=
  {| bids := "BidsAddress";
     asks := "AsksAddress";
     base_token := token base_decimals;
     quote_token := token quote_decimals;
     base_lot_size := of_int base_lot;
     quote_lot_size := of_int quote_lot |}.

(** A leaf whose order id carries the price in its upper 64 bits and a
    sequence number below. *)
Definition leaf (native_price seq native_quantity : Z) : layouts.Node :=
  layouts.Leaf (of_int native_price) (native_price * 2 ^ 64 + seq)
               (of_int native_quantity) "owner" seq.

Definition book_side (kind : layouts.DATA_TYPE) (d : PerpMarketDetails)
    (bump root leaves : Z) (slab : list layouts.Node) : OrderBookSide.t :=
  {| OrderBookSide.account_info := {| address := "SideAddress"; data := [] |};
     OrderBookSide.version := V1;
     OrderBookSide.meta_data :=
       {| data_type := kind; md_version := V1; is_initialized := true |};
     OrderBookSide.perp_market_details := d;
     OrderBookSide.bump_index := bump;
     OrderBookSide.free_list_len := 0;
     OrderBookSide.free_list_head := 0;
     OrderBookSide.root_node := root;
     OrderBookSide.leaf_count := leaves;
     OrderBookSide.nodes := slab |}.

(** Three resting orders at the prices 1, 2 and 3, with the leaf of the
    lowest price directly below the root. *)
Definition deep_right_slab : list layouts.Node :=
  [layouts.Inner (1, 2); leaf 1 10 1; layouts.Inner (3, 4);
   leaf 2 11 1; leaf 3 12 1].

Definition deep_right_tree : tree :=
  TInner 0 (TLeaf 1) (TInner 2 (TLeaf 3) (TLeaf 4)).

(** The same three orders with the leaf of the highest price directly
    below the root. *)
Definition deep_left_slab : list layouts.Node :=
  [layouts.Inner (1, 4); layouts.Inner (2, 3); leaf 1 10 1;
   leaf 2 11 1; leaf 3 12 1].

Definition deep_left_tree : tree :=
  TInner 0 (TInner 1 (TLeaf 2) (TLeaf 3)) (TLeaf 4).

Definition deep_right_bids : OrderBookSide.t :=
  book_side layouts.Bids (details 1 1 6 6) 5 0 3 deep_right_slab.

Definition deep_left_asks : OrderBookSide.t :=
  book_side layouts.Asks (details 1 1 6 6) 5 0 3 deep_left_slab.

(** One resting order with the scaling of the worked example. *)
Definition worked_example : OrderBookSide.t :=
  book_side layouts.Bids (details 100 1 6 6) 1 0 1 [leaf 500 1 200].

(** One resting order at the native price 3 in a market whose base lot
    is 3 native units. *)
Definition thirds : OrderBookSide.t :=
  book_side layouts.Bids (details 3 1 6 6) 1 0 1 [leaf 3 1 200].

(** An empty side whose root field and slab hold leftovers. *)
Definition emptied : OrderBookSide.t :=
  book_side layouts.Asks (details 1 1 6 6) 2 7 0
            [layouts.Inner (0, 0); leaf 1 10 1].

Definition market : PerpMarket :=
  {| market_symbol := "BTC-PERP"; underlying_perp_market := details 100 1 6 6 |}.

(** A buffer of the reduced layout with capacity 3: a bids side whose
    root, slot 0, is an inner node over the leaves in slots 1 and 2. *)
Definition bids_bytes : list Byte.byte :=
  [Byte.x05; Byte.x00; Byte.x03; Byte.x00; Byte.x00; Byte.x00; Byte.x02;
   Byte.x01; Byte.x01; Byte.x02; Byte.x00;
   Byte.x02; Byte.x07; Byte.x01; Byte.x04;
   Byte.x02; Byte.x09; Byte.x02; Byte.x05].

(** A ledger with that buffer at the bids address and nothing else. *)
Definition ledger : Context :=
  {| accounts := fun addr =>
       if String.eqb addr "BidsAddress" then Some bids_bytes else None |}.

(** The same buffer with the version tag 5 in its header. *)
Definition bad_version_bytes : list Byte.byte :=
  [Byte.x05; Byte.x05; Byte.x03; Byte.x00; Byte.x00; Byte.x00; Byte.x02;
   Byte.x01; Byte.x01; Byte.x02; Byte.x00;
   Byte.x02; Byte.x07; Byte.x01; Byte.x04;
   Byte.x02; Byte.x09; Byte.x02; Byte.x05].

Definition empty_world {item : Type} : World item :=
  {| observers := []; subscriptions := []; manager := [];
     health_check := []; pings := [] |}.

(** An instance of the class the builder imports: the sides of
    [OrderBookSide] decoded with the reduced layout of capacity 3, whose
    [orders] makes a generator and never raises. *)
Definition lazy_parse (context : Context) (account_info : AccountInfo)
    (details : PerpMarketDetails) : result OrderBookSide.t :=
  OrderBookSide.parse (reduced_layout.schema 3) context account_info details.

Definition lazy_orders (side : OrderBookSide.t)
  : result OrderBookSide.generator :=
  ret (OrderBookSide.orders side).

(** Another instance: the same sides, whose [orders] runs the iteration
    at once, returns the list of the orders and raises what the
    iteration raises; an iteration of more than 100 steps is given up
    with an exception. *)
Definition eager_orders (side : OrderBookSide.t) : result (list Order) :=
  match OrderBookSide.drain DefaultContext 100 (OrderBookSide.orders side) with
  | (os, OrderBookSide.Finished) => ret os
  | (_, OrderBookSide.Failed e) => raise e
  | (_, OrderBookSide.Unfinished) => raise (Exception "unfinished")
  end.

(** A market whose base lot size is zero, with the same addresses. *)
Definition zero_lot_market : PerpMarket :=
  {| market_symbol := "ZERO-PERP";
     underlying_perp_market := details 0 1 6 6 |}.

End examples.

(** ** The inventory watcher of a Serum market *)

(** [build_serum_inventory_watcher] of [mango/watchers.py].  The classes
    it uses are not part of the given sources.  [TokenValue], the
    lookup [TokenAccount.fetch_largest_for_owner_and_token] and
    [str(token)] are taken as parameters; subscriptions, observers, the
    manager and the disposer are modelled as for the order book
    watcher: a subscription is for an address and a decode function
    (here the lambda whose free variable is a token) and has the
    observers subscribed to its publisher, an observer is the cell of
    its latest item, and the manager, the health check and the disposer
    record what has been added to them. *)
Module SerumInventory.

Section with_token_accounts.

Variable TokenValue : Type.

Record TokenAccount : Type := mkTokenAccount {
  ta_address : PublicKey;
  value : TokenValue
}.

Variable fetch_largest_for_owner_and_token
  : Context -> PublicKey -> Token -> option TokenAccount.

Variable Token_str : Token -> string.

Record Wallet : Type := mkWallet {
  wallet_address : PublicKey
}.

Record Market : Type := mkMarket {
  base : Token;
  quote : Token
}.

Inductive InventorySource : Type := SPL_TOKENS | ACCOUNT.

Record Inventory : Type := mkInventory {
  source : InventorySource;
  inventory_base : TokenValue;
  inventory_quote : TokenValue
}.

Record Subscription : Type := mkSubscription {
  subscription_address : PublicKey;
  subscription_token : Token;
  subscribers : list ref
}.

(** What [publisher.subscribe] returns: the handle of one observer on
    one publisher. *)
Record Disposable : Type := mkDisposable {
  disposable_publisher : ref;
  disposable_observer : ref
}.

Record World : Type := mkWorld {
  observers : list TokenAccount;
  subscriptions : list Subscription;
  manager : list ref;
  health_check : list (string * ref);
  disposer : list Disposable
}.

Definition new_subscription (w : World) (addr : PublicKey) (token : Token)
  : ref * World :=
  (List.length (subscriptions w),
   mkWorld (observers w) (subscriptions w ++ [mkSubscription addr token []])
           (manager w) (health_check w) (disposer w)).

Definition manager_add (w : World) (sub : ref) : World :=
  mkWorld (observers w) (subscriptions w) (manager w ++ [sub])
          (health_check w) (disposer w).

Definition new_observer (w : World) (initial : TokenAccount) : ref * World :=
  (List.length (observers w),
   mkWorld (observers w ++ [initial]) (subscriptions w) (manager w)
           (health_check w) (disposer w)).

Definition publisher_subscribe (w : World) (sub obs : ref)
  : Disposable * World :=
  (mkDisposable sub obs,
   match nth_error (subscriptions w) sub with
   | Some s =>
       mkWorld (observers w)
         (store_set (subscriptions w) sub
            (mkSubscription (subscription_address s) (subscription_token s)
                            (subscribers s ++ [obs])))
         (manager w) (health_check w) (disposer w)
   | None => w
   end).

Definition add_disposable (w : World) (d : Disposable) : World :=
  mkWorld (observers w) (subscriptions w) (manager w) (health_check w)
          (disposer w ++ [d]).

(** [observer.on_next(item)]: the cell takes the item. *)
Definition on_next (w : World) (obs : ref) (item : TokenAccount) : World :=
  mkWorld (store_set (observers w) obs item) (subscriptions w) (manager w)
          (health_check w) (disposer w).

Definition could_not_find_message (owner : PublicKey) (which : string)
    (token : Token) : string :=
  ("Could not find token account owned by " ++ owner ++ " for " ++ which
   ++ " token " ++ Token_str token ++ ".")%string.

(** The [LamdaUpdateWatcher] returned: the closure
    [serum_inventory_accessor], which has captured the two observers. *)
Record LamdaUpdateWatcher : Type := mkLamdaUpdateWatcher {
  latest_base_token_account_observer : ref;
  latest_quote_token_account_observer : ref
}.

(** The body of [serum_inventory_accessor], run in a world. *)
Definition serum_inventory_accessor (w : World) (watcher : LamdaUpdateWatcher)
  : option Inventory :=
  match nth_error (observers w) (latest_base_token_account_observer watcher),
        nth_error (observers w) (latest_quote_token_account_observer watcher)
  with
  | Some b, Some q => Some (mkInventory SPL_TOKENS (value b) (value q))
  | _, _ => None
  end.

Definition build_serum_inventory_watcher (context : Context) (w : World)
    (wallet : Wallet) (market : Market) : result LamdaUpdateWatcher * World :=
  match fetch_largest_for_owner_and_token context (wallet_address wallet)
                                          (base market) with
  | None =>
      (raise (Exception (could_not_find_message (wallet_address wallet)
                                                "base" (base market))), w)
  | Some base_account =>
      let '(base_token_subscription, w) :=
        new_subscription w (ta_address base_account) (base market) in
      let w := manager_add w base_token_subscription in
      let '(latest_base, w) := new_observer w base_account in
      let '(base_subscription_disposable, w) :=
        publisher_subscribe w base_token_subscription latest_base in
      let w := add_disposable w base_subscription_disposable in
      match fetch_largest_for_owner_and_token context
              (wallet_address wallet) (quote market) with
      | None =>
          (raise (Exception (could_not_find_message (wallet_address wallet)
                                                    "quote" (quote market))),
           w)
      | Some quote_account =>
          let '(quote_token_subscription, w) :=
            new_subscription w (ta_address quote_account) (quote market) in
          let w := manager_add w quote_token_subscription in
          let '(latest_quote, w) := new_observer w quote_account in
          let '(quote_subscription_disposable, w) :=
            publisher_subscribe w quote_token_subscription latest_quote in
          let w := add_disposable w quote_subscription_disposable in
          (ret (mkLamdaUpdateWatcher latest_base latest_quote), w)
      end
  end.

End with_token_accounts.

Arguments mkTokenAccount {TokenValue}.
Arguments ta_address {TokenValue}.
Arguments value {TokenValue}.
Arguments mkInventory {TokenValue}.
Arguments source {TokenValue}.
Arguments inventory_base {TokenValue}.
Arguments inventory_quote {TokenValue}.
Arguments mkWorld {TokenValue}.
Arguments observers {TokenValue}.
Arguments subscriptions {TokenValue}.
Arguments manager {TokenValue}.
Arguments health_check {TokenValue}.
Arguments disposer {TokenValue}.
Arguments new_subscription {TokenValue}.
Arguments manager_add {TokenValue}.
Arguments new_observer {TokenValue}.
Arguments publisher_subscribe {TokenValue}.
Arguments add_disposable {TokenValue}.
Arguments on_next {TokenValue}.
Arguments serum_inventory_accessor {TokenValue}.
Arguments build_serum_inventory_watcher {TokenValue}.

End SerumInventory.

(** ** The order in which the loop serves the nodes *)

(** The subtrees whose roots one loop iteration puts on [stack] for a
    node, in the order in which later iterations pop them: the list is
    popped from its end, so of [[child0, child1, *stack]] the second
    child leaves first, and of [[child1, child0, *stack]] the first. *)
Definition pushed (order_side : Side) (t : tree) : list tree :=
  match t with
  | TInner _ l r => if Side_eqb order_side BUY then [r; l] else [l; r]
  | _ => []
  end.

Fixpoint tree_depth (t : tree) : nat :=
  match t with
  | TInner _ l r => S (Nat.max (tree_depth l) (tree_depth r))
  | _ => 1%nat
  end.

(** The level order of a sequence of trees: their roots, then the level
    order of the subtrees pushed for them, for [depth] levels. *)
Fixpoint level_order (order_side : Side) (depth : nat) (ts : list tree)
  : list Z :=
  match depth with
  | O => []
  | S depth' =>
      map tree_index ts
      ++ level_order order_side depth' (flat_map (pushed order_side) ts)
  end.

(** [served order_side q vis]: a queue discipline on trees.  The tree
    at the head of [q] is served, its pushed subtrees join at the back,
    and [vis] lists the roots in the order of service. *)
Inductive served (order_side : Side) : list tree -> list Z -> Prop :=
| served_nil : served order_side [] []
| served_cons (t : tree) (q : list tree) (vis : list Z) :
    served order_side (q ++ pushed order_side t) vis ->
    served order_side (t :: q) (tree_index t :: vis).

(** Every leaf of the tree is [depth] levels below and including the
    root, and the tree has leaves and inner nodes only. *)
Fixpoint leaves_at_depth (depth : nat) (t : tree) : bool :=
  match depth, t with
  | S O, TLeaf _ => true
  | S depth', TInner _ l r =>
      leaves_at_depth depth' l && leaves_at_depth depth' r
  | _, _ => false
  end.

(** The keys of the leaves of a tree in the order a side asks for:
    from [child1] to [child0] on the buy side, from [child0] to
    [child1] on the sell side. *)
Definition side_keys (slab : list layouts.Node) (order_side : Side)
    (t : tree) : list (Q * Z) :=
  if Side_eqb order_side BUY then rev (tree_keys slab t)
  else tree_keys slab t.

(** The side that [orders] computes from the header before its loop. *)
Definition side_of (self : OrderBookSide.t) : Side :=
  if layouts.DATA_TYPE_eqb (data_type (OrderBookSide.meta_data self))
                           layouts.Bids
  then BUY else SELL.

(** The address that [build_perp_orderbook_side_watcher] watches. *)
Definition watched_address (perp_market : PerpMarket)
    (side : OrderBookSideType) : PublicKey :=
  if OrderBookSideType_eqb side BIDS
  then bids (underlying_perp_market perp_market)
  else asks (underlying_perp_market perp_market).

(** Two sides that agree on what [orders] reads: the data type, the
    root, the slab, the market details, and whether [leaf_count] is
    zero. *)
Definition same_book (a b : OrderBookSide.t) : Prop :=
  data_type (OrderBookSide.meta_data a) = data_type (OrderBookSide.meta_data b)
  /\ OrderBookSide.root_node a = OrderBookSide.root_node b
  /\ OrderBookSide.nodes a = OrderBookSide.nodes b
  /\ OrderBookSide.perp_market_details a = OrderBookSide.perp_market_details b
  /\ (OrderBookSide.leaf_count a =? 0) = (OrderBookSide.leaf_count b =? 0).

(** Two generators at the same point of their bodies, with the same
    locals, over sides that agree in that way. *)
Definition same_state (g g' : OrderBookSide.generator) : Prop :=
  match g, g' with
  | OrderBookSide.Created a, OrderBookSide.Created b => same_book a b
  | OrderBookSide.Suspended a sd st, OrderBookSide.Suspended b sd' st' =>
      same_book a b /\ sd = sd' /\ st = st'
  | OrderBookSide.Closed, OrderBookSide.Closed => True
  | _, _ => False
  end.

(** An index outside of what a Python list of length [n] accepts. *)
Definition out_of_range (n : nat) (i : Z) : Prop :=
  i < - Z.of_nat n \/ Z.of_nat n <= i.

(** ** Further instances *)

Module more_examples.

(** A slab whose root is an inner node with itself as both children. *)
Definition self_loop : OrderBookSide.t :=
  examples.book_side layouts.Bids (examples.details 1 1 6 6) 1 0 1
                     [layouts.Inner (0, 0)].

(** One resting order in a market whose base lot size is zero. *)
Definition zero_base_lot : OrderBookSide.t :=
  examples.book_side layouts.Bids (examples.details 0 1 6 6) 1 0 1
                     [examples.leaf 500 1 200].

(** A side whose root field points past its single slot. *)
Definition dangling_root : OrderBookSide.t :=
  examples.book_side layouts.Asks (examples.details 1 1 6 6) 1 5 1
                     [examples.leaf 1 10 1].

(** Four resting orders at the prices 1 to 4 in a tree with every leaf
    two levels below the root. *)
Definition level_slab : list layouts.Node :=
  [layouts.Inner (1, 2); layouts.Inner (3, 4); layouts.Inner (5, 6);
   examples.leaf 1 10 1; examples.leaf 2 11 1;
   examples.leaf 3 12 1; examples.leaf 4 13 1].

Definition level_tree : tree :=
  TInner 0 (TInner 1 (TLeaf 3) (TLeaf 4)) (TInner 2 (TLeaf 5) (TLeaf 6)).

Definition level_bids : OrderBookSide.t :=
  examples.book_side layouts.Bids (examples.details 1 1 6 6) 7 0 4 level_slab.

(** A side of the reduced layout with capacity 3 and the kind byte of
    an asks side. *)
Definition asks_bytes : list Byte.byte :=
  [Byte.x06; Byte.x00; Byte.x03; Byte.x00; Byte.x00; Byte.x00; Byte.x02;
   Byte.x01; Byte.x01; Byte.x02; Byte.x00;
   Byte.x02; Byte.x07; Byte.x01; Byte.x04;
   Byte.x02; Byte.x09; Byte.x02; Byte.x05].

(** A ledger with both sides of the book of [examples.market]. *)
Definition both_sides : Context :=
  {| accounts := fun addr =>
       if String.eqb addr "BidsAddress" then Some examples.bids_bytes
       else if String.eqb addr "AsksAddress" then Some asks_bytes
       else None |}.

(** A ledger whose account at the bids address is one byte long. *)
Definition truncated : Context :=
  {| accounts := fun addr =>
       if String.eqb addr "BidsAddress" then Some [Byte.x05] else None |}.

(** The side [examples.deep_right_bids] with a stale header: another
    bump index, free list and leaf count, and another account. *)
Definition stale_header : OrderBookSide.t :=
  {| OrderBookSide.account_info := {| address := "Other"; data := [Byte.x00] |};
     OrderBookSide.version := V3;
     OrderBookSide.meta_data :=
       {| data_type := layouts.Bids; md_version := V4;
          is_initialized := false |};
     OrderBookSide.perp_market_details := examples.details 1 1 6 6;
     OrderBookSide.bump_index := 99;
     OrderBookSide.free_list_len := 4;
     OrderBookSide.free_list_head := 7;
     OrderBookSide.root_node := 0;
     OrderBookSide.leaf_count := 42;
     OrderBookSide.nodes := examples.deep_right_slab |}.

(** A wallet with a token account for the base token of a market and
    none for its quote token, and one with both; amounts are plain
    decimals. *)
Definition base_only (context : Context) (owner : PublicKey) (token : Token)
  : option (SerumInventory.TokenAccount Decimal) :=
  if String.eqb (symbol token) "BASE"
  then Some (SerumInventory.mkTokenAccount "BaseAccount" (of_int 5))
  else None.

Definition base_and_quote (context : Context) (owner : PublicKey)
    (token : Token) : option (SerumInventory.TokenAccount Decimal) :=
  if String.eqb (symbol token) "BASE"
  then Some (SerumInventory.mkTokenAccount "BaseAccount" (of_int 5))
  else Some (SerumInventory.mkTokenAccount "QuoteAccount" (of_int 70)).

Definition serum_market : SerumInventory.Market :=
  SerumInventory.mkMarket (mkToken "BASE" 6) (mkToken "QUOTE" 6).

Definition wallet : SerumInventory.Wallet :=
  SerumInventory.mkWallet "Owner".

Definition no_token_watchers : SerumInventory.World Decimal :=
  SerumInventory.mkWorld [] [] [] [] [].

End more_examples.

(** * Properties *)

(** ** The stack discipline *)

Lemma pop_nil {A : Type} : pop (@nil A) = None.
Proof. reflexivity. Qed.

Lemma pop_snoc {A : Type} (l : list A) (x : A) : pop (l ++ [x]) = Some (l, x).
Proof.
  unfold pop. rewrite rev_app_distr. simpl. now rewrite rev_involutive.
Qed.

Lemma pop_some {A : Type} (l l' : list A) (x : A) :
  pop l = Some (l', x) -> l = l' ++ [x].
Proof.
  unfold pop. intros H.
  destruct (rev l) as [|y r] eqn:E; [discriminate|].
  injection H as <- <-.
  rewrite <- (rev_involutive l), E. reflexivity.
Qed.

Lemma pop_none {A : Type} (l : list A) : pop l = None -> l = [].
Proof.
  unfold pop. intros H.
  destruct (rev l) as [|y r] eqn:E; [|discriminate].
  rewrite <- (rev_involutive l), E. reflexivity.
Qed.

(** ** Invariants of the generator *)

Import OrderBookSide.

(** Case analysis of one piece of the body of [orders]. *)
Ltac step_cases H :=
  match type of H with
  | resume _ ?g = _ =>
      unfold resume in H;
      repeat match type of H with
        | context [match ?x with _ => _ end] =>
            let E := fresh "E" in destruct x eqn:E
        | context [if ?b then _ else _] =>
            let E := fresh "E" in destruct b eqn:E
        end;
      try (injection H as <- <-); try discriminate
  end.

(** A property of generators that every piece of the body preserves,
    together with a property of every order it yields, holds of all the
    orders of an iteration. *)
Lemma drain_Forall (dctx : DecimalContext) (Inv : generator -> Prop)
    (P : Order -> Prop) :
  (forall g s g', Inv g -> resume dctx g = (s, g') ->
                  Inv g' /\ (forall o, s = Yield o -> P o)) ->
  forall fuel g os out,
    Inv g -> drain dctx fuel g = (os, out) -> Forall P os.
Proof.
  intros Hstep fuel.
  induction fuel as [|fuel IH]; intros g os out Hg Hd; simpl in Hd.
  - injection Hd as <- <-. constructor.
  - destruct (resume dctx g) as [s g'] eqn:Hr.
    destruct (Hstep g s g' Hg Hr) as [Hg' Hy].
    destruct s.
    + destruct (drain dctx fuel g') as [os' out'] eqn:Hd'.
      injection Hd as <- <-.
      constructor; [now apply Hy | now apply (IH g' os' out')].
    + now apply (IH g' os out).
    + injection Hd as <- <-. constructor.
    + injection Hd as <- <-. constructor.
Qed.

Lemma DATA_TYPE_eqb_Bids (k : layouts.DATA_TYPE) :
  layouts.DATA_TYPE_eqb k layouts.Bids = true <-> k = layouts.Bids.
Proof. destruct k; simpl; split; congruence. Qed.

(** The side that [orders] computes before its loop. *)
Lemma resume_order_side (dctx : DecimalContext) (self self' : t)
    (order_side : Side) (stack : list Z) (s : signal) :
  resume dctx (Created self) = (s, Suspended self' order_side stack) ->
  self' = self
  /\ stack = [root_node self]
  /\ order_side =
     (if layouts.DATA_TYPE_eqb (data_type (meta_data self)) layouts.Bids
      then BUY else SELL).
Proof.
  unfold resume. destruct (leaf_count self =? 0); [discriminate|].
  intros H. injection H as _ <- <- <-. auto.
Qed.

Lemma leaf_order_fields (dctx : DecimalContext) (self : t) (sd : Side)
    (kp : Decimal) (koid : Z) (q : Decimal) (ow : PublicKey) (cid : Z)
    (o : Order) :
  leaf_order dctx self sd kp koid q ow cid = inr o ->
  id o = koid /\ client_order_id o = cid /\ owner o = ow
  /\ side o = sd /\ order_type o = UNKNOWN.
Proof.
  unfold leaf_order, bind, ret. intros H.
  repeat match type of H with
    | match ?x with _ => _ end = _ => destruct x; [discriminate|]
    end.
  injection H as <-. simpl. auto.
Qed.

(** ** An empty side *)

(** C4. For every decoded side with [leaf_count == 0], iterating
    [orders()] yields the empty sequence and ends normally at once,
    whatever [root_node] and the slab hold. *)
Theorem orders_empty_when_no_leaves (dctx : DecimalContext) (self : t)
    (fuel : nat) :
  leaf_count self = 0 ->
  drain dctx (S fuel) (orders self) = ([], Finished).
Proof.
  intros H. simpl. rewrite H. reflexivity.
Qed.

Lemma orders_empty_when_no_leaves_witness :
  leaf_count examples.emptied = 0
  /\ drain DefaultContext 1 (orders examples.emptied) = ([], Finished).
Proof.
  split; [reflexivity|].
  apply (orders_empty_when_no_leaves DefaultContext examples.emptied 0).
  reflexivity.
Defined.

(** ** The constant fields of the orders *)

Lemma iterates_step (dctx : DecimalContext) (self : t) (g g' : generator)
    (s : signal) :
  iterates self g -> resume dctx g = (s, g') -> iterates self g'.
Proof.
  intros Hg Hr. destruct g as [s0|s0 sd st|]; simpl in Hg.
  - subst s0. unfold resume in Hr.
    destruct (leaf_count self =? 0); injection Hr as <- <-; simpl; auto.
  - destruct Hg as [-> Hsd]. step_cases Hr; simpl; auto.
  - simpl in Hr. injection Hr as <- <-. exact I.
Qed.

Lemma iterates_yield (dctx : DecimalContext) (self : t) (g g' : generator)
    (o : Order) :
  iterates self g -> resume dctx g = (Yield o, g') ->
  exists kp koid q ow cid sd,
    In (layouts.Leaf kp koid q ow cid) (nodes self)
    /\ sd = (if layouts.DATA_TYPE_eqb (data_type (meta_data self))
                                       layouts.Bids
             then BUY else SELL)
    /\ leaf_order dctx self sd kp koid q ow cid = inr o.
Proof.
  intros Hg Hr. destruct g as [s0|s0 sd st|]; simpl in Hg.
  - unfold resume in Hr. destruct (leaf_count s0 =? 0); discriminate.
  - destruct Hg as [-> Hsd].
    unfold resume in Hr.
    destruct (pop st) as [[st' index]|]; [|discriminate].
    destruct (getitem (nodes self) index) as [e|node] eqn:Hget;
      [discriminate|].
    destruct node as [|[c0 c1]|kp koid q ow cid|nx]; try discriminate.
    + destruct (Side_eqb _ BUY); discriminate.
    + destruct (leaf_order dctx self _ kp koid q ow cid) as [e|o'] eqn:Hl;
        [discriminate|].
      injection Hr as <- <-.
      exists kp, koid, q, ow, cid, sd. split; [|split; [exact Hsd|]].
      * unfold getitem in Hget.
        destruct (_ && _); [|discriminate].
        destruct (nth_error _ _) eqn:Hn; [|discriminate].
        injection Hget as ->. eapply nth_error_In; eassumption.
      * exact Hl.
  - simpl in Hr. discriminate.
Qed.

(** C10. Every order yielded by [orders()] has the order type
    [UNKNOWN], and its side is [BUY] exactly when the decoded data type
    is [Bids] and [SELL] otherwise; the two fields do not depend on the
    leaf. *)
Theorem orders_side_and_type_constant (dctx : DecimalContext) (self : t)
    (fuel : nat) (os : list Order) (out : outcome) :
  drain dctx fuel (orders self) = (os, out) ->
  Forall (fun o =>
            order_type o = UNKNOWN
            /\ (side o = BUY <-> data_type (meta_data self) = layouts.Bids)
            /\ (side o = SELL <-> data_type (meta_data self) <> layouts.Bids))
         os.
Proof.
  apply (drain_Forall dctx (iterates self)); [|reflexivity].
  intros g s g' Hg Hr. split; [eapply iterates_step; eassumption|].
  intros o ->.
  destruct (iterates_yield dctx self g g' o Hg Hr)
    as (kp & koid & q & ow & cid & sd & _ & Hsd & Hl).
  apply leaf_order_fields in Hl.
  destruct Hl as (_ & _ & _ & Hside & Htype).
  split; [exact Htype|].
  rewrite Hside, Hsd.
  destruct (layouts.DATA_TYPE_eqb (data_type (meta_data self)) layouts.Bids)
    eqn:E.
  - apply DATA_TYPE_eqb_Bids in E. rewrite E.
    split; split; congruence.
  - assert (data_type (meta_data self) <> layouts.Bids) as Hne.
    { intros Hb. apply DATA_TYPE_eqb_Bids in Hb. congruence. }
    split; split; congruence.
Qed.

Lemma orders_side_and_type_constant_witness :
  Forall (fun o =>
            order_type o = UNKNOWN
            /\ (side o = BUY <->
                data_type (meta_data examples.deep_right_bids) = layouts.Bids)
            /\ (side o = SELL <->
                data_type (meta_data examples.deep_right_bids)
                <> layouts.Bids))
         (fst (drain DefaultContext 7 (orders examples.deep_right_bids))).
Proof.
  apply (orders_side_and_type_constant DefaultContext
           examples.deep_right_bids 7 _ Finished).
  vm_compute. reflexivity.
Defined.

(** ** The scaling of price and quantity *)

Lemma leaf_order_scaling (dctx : DecimalContext) (self : t) (sd : Side)
    (kp : Decimal) (koid : Z) (q : Decimal) (ow : PublicKey) (cid : Z)
    (o : Order) :
  leaf_order dctx self sd kp koid q ow cid = inr o ->
  exists native_to_ui lots scaled base_factor lot_quantity,
    pow10 dctx (decimals (base_token (perp_market_details self))
                - decimals (quote_token (perp_market_details self)))
    = inr native_to_ui
    /\ div dctx (quote_lot_size (perp_market_details self))
               (base_lot_size (perp_market_details self)) = inr lots
    /\ mul dctx kp lots = inr scaled
    /\ mul dctx scaled native_to_ui = inr (price o)
    /\ pow10 dctx (decimals (base_token (perp_market_details self)))
       = inr base_factor
    /\ mul dctx q (base_lot_size (perp_market_details self))
       = inr lot_quantity
    /\ div dctx lot_quantity base_factor = inr (quantity o).
Proof.
  unfold leaf_order, bind, ret. intros H.
  repeat match type of H with
    | match ?x with _ => _ end = _ =>
        let E := fresh "E" in destruct x eqn:E; [discriminate|]
    end.
  injection H as <-. simpl.
  do 5 eexists. repeat split; eassumption.
Qed.

(** C5, as the code has it. Every order yielded by [orders()] comes
    from a leaf of the slab, and its price and quantity are the results
    of
    [native_price * (quote_lot_size / base_lot_size)
       * 10 ** (base_decimals - quote_decimals)] and
    [native_quantity * base_lot_size / 10 ** base_decimals]
    where every operation is the one of [Decimal] in the active context,
    which rounds its result to the precision of the context.  With
    base_decimals = 6, quote_decimals = 6, base_lot_size = 100 and
    quote_lot_size = 1 in the default context, a native price of 500
    gives the price 5 and a native quantity of 200 gives the quantity
    0.02, both exactly. *)
Theorem orders_scaling_in_context (dctx : DecimalContext) (self : t)
    (fuel : nat) (os : list Order) (out : outcome) :
  drain dctx fuel (orders self) = (os, out) ->
  Forall (fun o =>
            exists kp koid q ow cid native_to_ui lots scaled base_factor
                   lot_quantity,
              In (layouts.Leaf kp koid q ow cid) (nodes self)
              /\ id o = koid
              /\ pow10 dctx
                   (decimals (base_token (perp_market_details self))
                    - decimals (quote_token (perp_market_details self)))
                 = inr native_to_ui
              /\ div dctx (quote_lot_size (perp_market_details self))
                         (base_lot_size (perp_market_details self))
                 = inr lots
              /\ mul dctx kp lots = inr scaled
              /\ mul dctx scaled native_to_ui = inr (price o)
              /\ pow10 dctx
                   (decimals (base_token (perp_market_details self)))
                 = inr base_factor
              /\ mul dctx q (base_lot_size (perp_market_details self))
                 = inr lot_quantity
              /\ div dctx lot_quantity base_factor = inr (quantity o))
         os
  /\ exists o,
       drain DefaultContext 3 (orders examples.worked_example)
       = ([o], Finished)
       /\ (to_Q (price o) == 5)%Q
       /\ (to_Q (quantity o) == 2 # 100)%Q.
Proof.
  intros Hd. split.
  - revert Hd.
    apply (drain_Forall dctx (iterates self)); [|reflexivity].
    intros g s g' Hg Hr. split; [eapply iterates_step; eassumption|].
    intros o ->.
    destruct (iterates_yield dctx self g g' o Hg Hr)
      as (kp & koid & q & ow & cid & sd & Hin & _ & Hl).
    destruct (leaf_order_scaling dctx self sd kp koid q ow cid o Hl)
      as (ntu & lots & scaled & bf & lq & H1 & H2 & H3 & H4 & H5 & H6 & H7).
    apply leaf_order_fields in Hl. destruct Hl as (Hid & _).
    exists kp, koid, q, ow, cid, ntu, lots, scaled, bf, lq.
    repeat split; assumption.
  - eexists. split; [vm_compute; reflexivity|].
    split; vm_compute; reflexivity.
Qed.

Lemma orders_scaling_in_context_witness :
  exists o,
    drain DefaultContext 3 (orders examples.worked_example) = ([o], Finished)
    /\ (to_Q (price o) == 5)%Q
    /\ (to_Q (quantity o) == 2 # 100)%Q.
Proof.
  refine (proj2 (orders_scaling_in_context DefaultContext
                   examples.worked_example 3
                   (fst (drain DefaultContext 3
                               (orders examples.worked_example)))
                   Finished _)).
  vm_compute. reflexivity.
Defined.

(** C5, as the claim has it, fails: in a market whose base lot is 3
    native units, the order at the native price 3 gets the price
    0.9999999999999999999999999999 and not the exact value
    3 * (1 / 3) * 10 ** 0 = 1. *)
Lemma orders_scaling_not_exact :
  exists o,
    drain DefaultContext 3 (orders examples.thirds) = ([o], Finished)
    /\ price o = mkDecimal false 9999999999999999999999999999 (-28)
    /\ (exact_price 3 (perp_market_details examples.thirds) == 1)%Q
    /\ ~ (to_Q (price o)
          == exact_price 3 (perp_market_details examples.thirds))%Q.
Proof.
  eexists. split; [vm_compute; reflexivity|].
  split; [reflexivity|].
  split; [vm_compute; reflexivity|].
  intros H. vm_compute in H. discriminate H.
Qed.

(** ** The decoder entry point *)

Lemma Version_of_int_spec (n : Z) :
  (0 <= n <= 5 -> exists v, Version_of_int n = inr v)
  /\ (~ 0 <= n <= 5 -> Version_of_int n = inl ValueError).
Proof.
  unfold Version_of_int, ret, raise. split; intros H.
  - assert (D : n = 0 \/ n = 1 \/ n = 2 \/ n = 3 \/ n = 4 \/ n = 5) by lia.
    destruct D as [->|[->|[->|[->|[->| ->]]]]]; eexists; reflexivity.
  - destruct (Z.eqb_spec n 0); [exfalso; lia|].
    destruct (Z.eqb_spec n 1); [exfalso; lia|].
    destruct (Z.eqb_spec n 2); [exfalso; lia|].
    destruct (Z.eqb_spec n 3); [exfalso; lia|].
    destruct (Z.eqb_spec n 4); [exfalso; lia|].
    destruct (Z.eqb_spec n 5); [exfalso; lia|].
    reflexivity.
Qed.

(** What [from_layout] returns, when it returns: the fields of the
    decoded layout as they are, nodes included. *)
Lemma from_layout_fields (layout : layouts.Container) (info : AccountInfo)
    (v : Version) (details : PerpMarketDetails) (side : t) :
  from_layout layout info v details = inr side ->
  account_info side = info
  /\ version side = v
  /\ perp_market_details side = details
  /\ data_type (meta_data side)
     = layouts.data_type (layouts.meta_data layout)
  /\ bump_index side = layouts.bump_index layout
  /\ free_list_len side = layouts.free_list_len layout
  /\ free_list_head side = layouts.free_list_head layout
  /\ root_node side = layouts.root_node layout
  /\ leaf_count side = layouts.leaf_count layout
  /\ nodes side = layouts.nodes layout.
Proof.
  unfold from_layout, Metadata_from_layout, bind, ret.
  destruct (Version_of_int _) as [e|v']; [discriminate|].
  intros H. injection H as <-. simpl. repeat split.
Qed.

Lemma from_layout_version (layout : layouts.Container) (info : AccountInfo)
    (v : Version) (details : PerpMarketDetails) :
  (0 <= layouts.version (layouts.meta_data layout) + 1 <= 5 ->
   exists side, from_layout layout info v details = inr side)
  /\ (~ 0 <= layouts.version (layouts.meta_data layout) + 1 <= 5 ->
      from_layout layout info v details = inl ValueError).
Proof.
  unfold from_layout, Metadata_from_layout, bind, ret.
  destruct (Version_of_int_spec
              (layouts.version (layouts.meta_data layout) + 1)) as [Hok Hbad].
  split; intros H.
  - destruct (Hok H) as [v' ->]. eexists. reflexivity.
  - rewrite (Hbad H). reflexivity.
Qed.

(** C3, as the code has it. [parse] raises the exception whose message
    carries the actual and the expected size whenever the length of the
    data differs from [layouts.ORDERBOOK_SIDE.sizeof()], and then no
    [OrderBookSide] is returned; every side it returns comes from a
    buffer of the expected size and has the fields and the nodes of the
    decoded layout as they are, no node discriminant being looked at.
    On a buffer of the expected size it raises what the layout decoder
    raises, and when the decoder returns a layout it returns the side
    unless the version tag of the header is 5 or more, for which
    [Metadata.from_layout] raises [ValueError]. *)
Theorem parse_checks_size_then_decodes (schema : layouts.Schema)
    (context : Context) (info : AccountInfo) (details : PerpMarketDetails) :
  (List.length (data info) <> layouts.sizeof schema ->
   parse schema context info details
   = inl (Exception
            (size_mismatch_message (List.length (data info))
                                   (layouts.sizeof schema))))
  /\ (forall side,
         parse schema context info details = inr side ->
         List.length (data info) = layouts.sizeof schema
         /\ exists layout,
              layouts.parse schema (data info) = inr layout
              /\ account_info side = info
              /\ version side = V1
              /\ perp_market_details side = details
              /\ data_type (meta_data side)
                 = layouts.data_type (layouts.meta_data layout)
              /\ bump_index side = layouts.bump_index layout
              /\ free_list_len side = layouts.free_list_len layout
              /\ free_list_head side = layouts.free_list_head layout
              /\ root_node side = layouts.root_node layout
              /\ leaf_count side = layouts.leaf_count layout
              /\ nodes side = layouts.nodes layout)
  /\ (List.length (data info) = layouts.sizeof schema ->
      (forall e,
          layouts.parse schema (data info) = inl e ->
          parse schema context info details = inl e)
      /\ (forall layout,
             layouts.parse schema (data info) = inr layout ->
             (0 <= layouts.version (layouts.meta_data layout) + 1 <= 5 ->
              exists side, parse schema context info details = inr side)
             /\ (~ 0 <= layouts.version (layouts.meta_data layout) + 1 <= 5 ->
                 parse schema context info details = inl ValueError))).
Proof.
  unfold parse, bind, raise. cbv zeta.
  destruct (List.length (data info) =? layouts.sizeof schema)%nat eqn:Hlen;
    cbn [negb].
  - apply Nat.eqb_eq in Hlen. split; [intros H; contradiction|]. split.
    + intros side H. split; [exact Hlen|].
      destruct (layouts.parse schema (data info)) as [e|layout];
        [discriminate|].
      exists layout. split; [reflexivity|].
      apply (from_layout_fields layout info V1 details side H).
    + intros _. split.
      * intros e He. rewrite He. reflexivity.
      * intros layout Hl. rewrite Hl.
        apply from_layout_version.
  - apply Nat.eqb_neq in Hlen. split; [intros _; reflexivity|]. split.
    + intros side H. discriminate.
    + intros H. contradiction.
Qed.

Lemma parse_checks_size_then_decodes_witness :
  parse (reduced_layout.schema 4) examples.ledger
        (mkAccountInfo "BidsAddress" examples.bids_bytes)
        (examples.details 100 1 6 6)
  = inl (Exception
           "OrderBookSide data length (19) does not match expected size (23)").
Proof.
  apply (proj1 (parse_checks_size_then_decodes
                  (reduced_layout.schema 4) examples.ledger
                  (mkAccountInfo "BidsAddress" examples.bids_bytes)
                  (examples.details 100 1 6 6))).
  simpl. discriminate.
Defined.

(** C3, as the claim has it, fails: a buffer of exactly the expected
    size whose header carries the version tag 5 makes [parse] raise, so
    [parse] does not raise only when the length differs. *)
Lemma parse_raises_on_right_size :
  List.length examples.bad_version_bytes
  = layouts.sizeof (reduced_layout.schema 3)
  /\ parse (reduced_layout.schema 3) examples.ledger
           (mkAccountInfo "BidsAddress" examples.bad_version_bytes)
           (examples.details 100 1 6 6)
     = inl ValueError
  /\ ~ ((exists e,
            parse (reduced_layout.schema 3) examples.ledger
                  (mkAccountInfo "BidsAddress" examples.bad_version_bytes)
                  (examples.details 100 1 6 6) = inl e)
        <-> List.length examples.bad_version_bytes
            <> layouts.sizeof (reduced_layout.schema 3)).
Proof.
  split; [reflexivity|]. split; [vm_compute; reflexivity|].
  intros [H _]. apply H; [|reflexivity].
  eexists. vm_compute. reflexivity.
Qed.

(** ** Watcher construction *)

Lemma nth_error_snoc {A : Type} (l : list A) (x : A) :
  nth_error (l ++ [x]) (List.length l) = Some x.
Proof.
  rewrite nth_error_app2 by apply Nat.le_refl.
  rewrite Nat.sub_diag. reflexivity.
Qed.

(** C6. When the synchronous fetch finds no data at the address,
    [OrderBookSide.load] raises and returns no [OrderBookSide], and
    [build_perp_orderbook_side_watcher] raises and leaves the world as
    it found it: no subscription or observer has been created, nothing
    has been added to the manager or to the health check. *)
Theorem construction_fails_when_account_missing (schema : layouts.Schema)
    (PerpOrderBookSide item : Type)
    (PerpOrderBookSide_parse
      : Context -> AccountInfo -> PerpMarketDetails
        -> result PerpOrderBookSide)
    (PerpOrderBookSide_orders : PerpOrderBookSide -> result item)
    (context : Context) (w : World item) (perp_market : PerpMarket)
    (side : OrderBookSideType) :
  (forall addr details,
      AccountInfo_load context addr = None ->
      load schema context addr details
      = inl (Exception (not_found_message addr)))
  /\ (AccountInfo_load context
        (if OrderBookSideType_eqb side BIDS
         then bids (underlying_perp_market perp_market)
         else asks (underlying_perp_market perp_market)) = None ->
      build_perp_orderbook_side_watcher PerpOrderBookSide_parse
        PerpOrderBookSide_orders context w perp_market side
      = (inl (Exception
                (could_not_find_message
                   (if OrderBookSideType_eqb side BIDS
                    then bids (underlying_perp_market perp_market)
                    else asks (underlying_perp_market perp_market)))),
         w)).
Proof.
  split.
  - intros addr details H. unfold load. rewrite H. reflexivity.
  - intros H. unfold build_perp_orderbook_side_watcher.
    rewrite H. reflexivity.
Qed.

Lemma construction_fails_when_account_missing_witness :
  load (reduced_layout.schema 3) examples.ledger "AsksAddress"
       (examples.details 100 1 6 6)
  = inl (Exception
           "OrderBookSide account not found at address 'AsksAddress'")
  /\ build_perp_orderbook_side_watcher examples.lazy_parse
       examples.lazy_orders examples.ledger examples.empty_world
       examples.market ASKS
     = (inl (Exception
               "Could not find perp order book side at address AsksAddress."),
        examples.empty_world).
Proof.
  destruct (construction_fails_when_account_missing
              (reduced_layout.schema 3) _ _ examples.lazy_parse
              examples.lazy_orders examples.ledger
              examples.empty_world examples.market ASKS) as [Hload Hbuild].
  split.
  - apply (Hload "AsksAddress" (examples.details 100 1 6 6)). reflexivity.
  - apply Hbuild. reflexivity.
Defined.

(** ** Determinism *)

(** An iteration that has ended gives the same result with more steps
    allowed. *)
Lemma drain_more_fuel (dctx : DecimalContext) (fuel : nat) :
  forall g os out,
    drain dctx fuel g = (os, out) -> out <> Unfinished ->
    forall fuel', (fuel <= fuel')%nat -> drain dctx fuel' g = (os, out).
Proof.
  induction fuel as [|fuel IH]; intros g os out Hd Hout fuel' Hle.
  - simpl in Hd. injection Hd as <- <-. congruence.
  - destruct fuel' as [|fuel']; [inversion Hle|].
    apply le_S_n in Hle. simpl in Hd |- *.
    destruct (resume dctx g) as [[o| | |e] g'].
    + destruct (drain dctx fuel g') as [os' out'] eqn:Hd'.
      injection Hd as <- <-.
      rewrite (IH g' os' out' Hd' Hout fuel' Hle). reflexivity.
    + apply (IH g' os out Hd Hout fuel' Hle).
    + exact Hd.
    + exact Hd.
Qed.

Lemma iterates_advance (dctx : DecimalContext) (self : t) (n : nat) :
  forall g, iterates self g -> iterates self (advance dctx n g).
Proof.
  induction n as [|n IH]; intros g Hg; simpl; [exact Hg|].
  apply IH. destruct (resume dctx g) as [s g'] eqn:Hr.
  simpl. eapply iterates_step; eassumption.
Qed.

Lemma leaf_order_same (dctx : DecimalContext) (a b : t) (sd : Side)
    (kp : Decimal) (koid : Z) (q : Decimal) (ow : PublicKey) (cid : Z) :
  perp_market_details a = perp_market_details b ->
  leaf_order dctx a sd kp koid q ow cid
  = leaf_order dctx b sd kp koid q ow cid.
Proof. intros H. unfold leaf_order. rewrite H. reflexivity. Qed.

Lemma resume_same (dctx : DecimalContext) (g g' : generator) :
  same_state g g' ->
  fst (resume dctx g) = fst (resume dctx g')
  /\ same_state (snd (resume dctx g)) (snd (resume dctx g')).
Proof.
  destruct g as [a|a sd st|], g' as [b|b sd' st'|]; simpl;
    try contradiction; try (intros _; split; [reflexivity|exact I]).
  - intros (Hk & Hr & Hn & Hd & Hz). rewrite Hz, Hk, Hr.
    destruct (leaf_count b =? 0) eqn:Eb; simpl;
      [split; [reflexivity|exact I]|].
    split; [reflexivity|]. unfold same_book.
    repeat split; auto; congruence.
  - intros ((Hk & Hr & Hn & Hd & Hz) & <- & <-).
    assert (Hsame : same_book a b) by (unfold same_book; auto).
    destruct (pop st) as [[st' index]|]; simpl;
      [|split; [reflexivity|exact I]].
    rewrite Hn.
    destruct (getitem (nodes b) index) as [e|node]; simpl;
      [split; [reflexivity|exact I]|].
    destruct node as [|[c0 c1]|kp koid q ow cid|nx]; simpl; auto.
    + destruct (Side_eqb sd BUY); simpl; auto.
    + rewrite (leaf_order_same dctx a b sd kp koid q ow cid Hd).
      destruct (leaf_order dctx b sd kp koid q ow cid); simpl; auto.
Qed.

Lemma drain_same (dctx : DecimalContext) :
  forall fuel g g',
    same_state g g' -> drain dctx fuel g = drain dctx fuel g'.
Proof.
  induction fuel as [|fuel IH]; intros g g' H; [reflexivity|].
  cbn [drain].
  destruct (resume_same dctx g g' H) as [Hs Hg].
  destruct (resume dctx g) as [s g1], (resume dctx g') as [s' g1'].
  simpl in Hs, Hg. subst s'.
  destruct s; try reflexivity.
  - rewrite (IH g1 g1' Hg). reflexivity.
  - apply IH. exact Hg.
Qed.

(** C9, as the code has it. While one decimal context is active,
    [orders()] is a function of what it reads of the side: two
    iterations that run to their end in that context, over the same
    side or over two sides with the same data type, root, nodes and
    market details and both with or both without leaves, yield the same
    sequence of orders and end the same way, however many steps each
    was allowed; and at every point of an iteration the generator still
    refers to the side it was called on, with every field as it was. *)
Theorem orders_deterministic_in_one_context (dctx : DecimalContext)
    (a b : t) (fuel1 fuel2 : nat) (os1 os2 : list Order)
    (out1 out2 : outcome) :
  same_book a b ->
  drain dctx fuel1 (orders a) = (os1, out1) -> out1 <> Unfinished ->
  drain dctx fuel2 (orders b) = (os2, out2) -> out2 <> Unfinished ->
  os1 = os2 /\ out1 = out2
  /\ forall n,
       match advance dctx n (orders a) with
       | Created s | Suspended s _ _ => s = a
       | Closed => True
       end.
Proof.
  intros Hsame H1 Hout1 H2 Hout2.
  assert (E1 := drain_more_fuel dctx fuel1 _ _ _ H1 Hout1
                  (Nat.max fuel1 fuel2) (Nat.le_max_l _ _)).
  assert (E2 := drain_more_fuel dctx fuel2 _ _ _ H2 Hout2
                  (Nat.max fuel1 fuel2) (Nat.le_max_r _ _)).
  rewrite (drain_same dctx (Nat.max fuel1 fuel2) (orders a) (orders b) Hsame)
    in E1.
  rewrite E1 in E2. injection E2 as -> ->.
  split; [reflexivity|]. split; [reflexivity|].
  intros n.
  assert (Hinv : iterates a (advance dctx n (orders a))).
  { apply iterates_advance. reflexivity. }
  destruct (advance dctx n (orders a)); simpl in Hinv; tauto.
Qed.

Lemma orders_deterministic_in_one_context_witness :
  fst (drain DefaultContext 7 (orders examples.deep_right_bids))
  = fst (drain DefaultContext 12 (orders examples.deep_right_bids))
  /\ Finished = Finished
  /\ forall n,
       match advance DefaultContext n (orders examples.deep_right_bids) with
       | Created s | Suspended s _ _ => s = examples.deep_right_bids
       | Closed => True
       end.
Proof.
  apply (orders_deterministic_in_one_context DefaultContext
           examples.deep_right_bids examples.deep_right_bids 7 12).
  - repeat split.
  - vm_compute. reflexivity.
  - discriminate.
  - vm_compute. reflexivity.
  - discriminate.
Defined.

(** C9, as the claim has it, fails: the decimal operations of
    [orders()] read the decimal context that is active when the
    iteration runs, so two invocations on the same unchanged side, one
    under the default precision of 28 digits and one under a precision
    of 36 digits, yield different orders. *)
Lemma orders_depend_on_decimal_context :
  exists o1 o2,
    drain (mkContext 28 999999 (-999999)) 3 (orders examples.thirds)
    = ([o1], Finished)
    /\ drain (mkContext 36 999999 (-999999)) 3 (orders examples.thirds)
       = ([o2], Finished)
    /\ price o1 = mkDecimal false 9999999999999999999999999999 (-28)
    /\ price o2
       = mkDecimal false 999999999999999999999999999999999999 (-36)
    /\ [o1] <> [o2].
Proof.
  do 2 eexists.
  split; [vm_compute; reflexivity|].
  split; [vm_compute; reflexivity|].
  split; [reflexivity|]. split; [reflexivity|].
  intros H. discriminate H.
Qed.

(** ** Termination *)

(** The decimal operations raise nothing but the signals of the
    context. *)
Lemma fix_raises (ctx : DecimalContext) (d : Decimal) (e : exn) :
  fix_ ctx d = inl e -> e = Overflow.
Proof.
  unfold fix_, raise, ret. intros H.
  repeat match type of H with
    | context [if ?b then _ else _] => destruct b
    end; congruence.
Qed.

Lemma mul_raises (ctx : DecimalContext) (a b : Decimal) (e : exn) :
  mul ctx a b = inl e -> e <> IndexError.
Proof.
  unfold mul. intros H. apply fix_raises in H. congruence.
Qed.

Lemma div_raises (ctx : DecimalContext) (a b : Decimal) (e : exn) :
  div ctx a b = inl e -> e <> IndexError.
Proof.
  unfold div, raise. intros H.
  destruct (dint b =? 0).
  - destruct (dint a =? 0); congruence.
  - destruct (dint a =? 0).
    + apply fix_raises in H. congruence.
    + destruct (if 0 <=? _ then _ else _) as [coeff remainder].
      destruct (if remainder =? 0 then _ else _) as [coeff' exp'].
      apply fix_raises in H. congruence.
Qed.

Lemma pow10_raises (ctx : DecimalContext) (n : Z) (e : exn) :
  pow10 ctx n = inl e -> e <> IndexError.
Proof.
  unfold pow10, ret. intros H.
  repeat match type of H with
    | (if ?b then _ else _) = _ => destruct b
    end;
    try discriminate; apply fix_raises in H; congruence.
Qed.

Lemma leaf_order_raises (dctx : DecimalContext) (self : t) (sd : Side)
    (kp : Decimal) (koid : Z) (q : Decimal) (ow : PublicKey) (cid : Z)
    (e : exn) :
  leaf_order dctx self sd kp koid q ow cid = inl e -> e <> IndexError.
Proof.
  unfold leaf_order, bind, ret. intros H.
  repeat match type of H with
    | match ?x with _ => _ end = _ =>
        let E := fresh "E" in
        destruct x eqn:E;
        [ injection H as <-;
          first [ eapply pow10_raises; eassumption
                | eapply mul_raises; eassumption
                | eapply div_raises; eassumption ] | ]
    end.
  discriminate.
Qed.

Lemma drain_S (dctx : DecimalContext) (n : nat) (g : generator) :
  drain dctx (S n) g =
  match resume dctx g with
  | (Yield o, g') => let '(os, out) := drain dctx n g' in (o :: os, out)
  | (Continue, g') => drain dctx n g'
  | (Return, _) => ([], Finished)
  | (Raise e, _) => ([], Failed e)
  end.
Proof. reflexivity. Qed.

(** With a stack whose entries are the roots of trees into which the
    slab unfolds, the loop ends within as many iterations as the trees
    have nodes, plus the one that finds the stack empty. *)
Lemma drain_stack_terminates (dctx : DecimalContext) (self : t) (sd : Side) :
  forall n ts stack,
    Forall2 (fun i t => tree_index t = i) stack ts ->
    forallb (unfolds (nodes self)) ts = true ->
    (list_sum (map tree_size ts) < n)%nat ->
    exists os out,
      drain dctx n (Suspended self sd stack) = (os, out)
      /\ out <> Unfinished
      /\ out <> Failed IndexError
      /\ (List.length os <= list_sum (map tree_size ts))%nat.
Proof.
  induction n as [|n IH]; intros ts stack Hroots Hunf Hsize; [lia|].
  rewrite drain_S.
  destruct (pop stack) as [[st i]|] eqn:Hpop.
  - apply pop_some in Hpop. subst stack.
    apply Forall2_app_inv_l in Hroots.
    destruct Hroots as (ts1 & ts2 & Hst & Hi & ->).
    inversion Hi as [|i' t l' ts2' Hidx Hnil]; subst.
    inversion Hnil; subst. clear Hi Hnil.
    rewrite forallb_app in Hunf. apply andb_true_iff in Hunf.
    destruct Hunf as [Hunf1 Hunft]. simpl in Hunft.
    rewrite andb_true_r in Hunft.
    rewrite map_app, list_sum_app in Hsize |- *. simpl in Hsize |- *.
    unfold resume. rewrite pop_snoc.
    destruct t as [j|j l r|j]; simpl in Hunft, Hsize |- *.
    + destruct (getitem (nodes self) j) as [e|node]; [discriminate|].
      destruct node as [|[c0 c1]|kp koid q ow cid|nx]; try discriminate.
      destruct (leaf_order dctx self sd kp koid q ow cid) as [e|o] eqn:Hl.
      * exists [], (Failed e). split; [reflexivity|].
        split; [discriminate|]. split; [|simpl; lia].
        apply leaf_order_raises in Hl. congruence.
      * destruct (IH ts1 st Hst Hunf1 ltac:(lia))
          as (os & out & Hd & H1 & H2 & H3).
        rewrite Hd. exists (o :: os), out.
        split; [reflexivity|]. split; [exact H1|]. split; [exact H2|].
        simpl. lia.
    + destruct (getitem (nodes self) j) as [e|node]; [discriminate|].
      destruct node as [|[c0 c1]|kp koid q ow cid|nx]; try discriminate.
      apply andb_true_iff in Hunft. destruct Hunft as [Hunft Hr].
      apply andb_true_iff in Hunft. destruct Hunft as [Hunft Hl].
      apply andb_true_iff in Hunft. destruct Hunft as [Hc0 Hc1].
      apply Z.eqb_eq in Hc0, Hc1.
      destruct (Side_eqb sd BUY).
      * destruct (IH (l :: r :: ts1) (c0 :: c1 :: st)) as
          (os & out & Hd & H1 & H2 & H3).
        { constructor; [auto|]. constructor; [auto|]. exact Hst. }
        { simpl. rewrite Hl, Hr, Hunf1. reflexivity. }
        { simpl. lia. }
        exists os, out. split; [exact Hd|]. split; [exact H1|].
        split; [exact H2|]. simpl in H3. lia.
      * destruct (IH (r :: l :: ts1) (c1 :: c0 :: st)) as
          (os & out & Hd & H1 & H2 & H3).
        { constructor; [auto|]. constructor; [auto|]. exact Hst. }
        { simpl. rewrite Hl, Hr, Hunf1. reflexivity. }
        { simpl. lia. }
        exists os, out. split; [exact Hd|]. split; [exact H1|].
        split; [exact H2|]. simpl in H3. lia.
    + destruct (getitem (nodes self) j) as [e|node]; [discriminate|].
      destruct node as [|[c0 c1]|kp koid q ow cid|nx]; try discriminate.
      * destruct (IH ts1 st Hst Hunf1 ltac:(lia))
          as (os & out & Hd & H1 & H2 & H3).
        exists os, out. split; [exact Hd|]. split; [exact H1|].
        split; [exact H2|]. lia.
      * destruct (IH ts1 st Hst Hunf1 ltac:(lia))
          as (os & out & Hd & H1 & H2 & H3).
        exists os, out. split; [exact Hd|]. split; [exact H1|].
        split; [exact H2|]. lia.
  - apply pop_none in Hpop. subst stack.
    exists [], Finished. simpl.
    split; [reflexivity|]. split; [discriminate|].
    split; [discriminate|]. lia.
Qed.

(** C8. For every decoded side whose node graph below [root_node]
    unfolds into a finite tree [t] with every index in range,
    iterating [orders()] ends within [tree_size t + 2] steps: it returns
    or a decimal operation raises, it never runs out of the slab, and it
    has yielded at most as many orders as [t] has nodes. *)
Theorem orders_terminates_on_trees (dctx : DecimalContext) (self : t)
    (tr : tree) :
  tree_index tr = root_node self ->
  unfolds (nodes self) tr = true ->
  exists os out,
    drain dctx (tree_size tr + 2) (orders self) = (os, out)
    /\ out <> Unfinished
    /\ out <> Failed IndexError
    /\ (List.length os <= tree_size tr)%nat
    /\ forall fuel, (tree_size tr + 2 <= fuel)%nat ->
                    drain dctx fuel (orders self) = (os, out).
Proof.
  intros Hroot Hunf.
  assert (Hrun : exists os out,
             drain dctx (tree_size tr + 2) (orders self) = (os, out)
             /\ out <> Unfinished /\ out <> Failed IndexError
             /\ (List.length os <= tree_size tr)%nat).
  { replace (tree_size tr + 2)%nat with (S (S (tree_size tr))) by lia.
    rewrite drain_S. unfold orders, resume.
    destruct (leaf_count self =? 0).
    - exists [], Finished. split; [reflexivity|].
      split; [discriminate|]. split; [discriminate|]. simpl. lia.
    - destruct (drain_stack_terminates dctx self
                  (if layouts.DATA_TYPE_eqb (data_type (meta_data self))
                                            layouts.Bids
                   then BUY else SELL)
                  (S (tree_size tr)) [tr] [root_node self])
        as (os & out & Hd & H1 & H2 & H3).
      + constructor; [exact Hroot|constructor].
      + simpl. rewrite Hunf. reflexivity.
      + simpl. lia.
      + exists os, out. split; [exact Hd|]. split; [exact H1|].
        split; [exact H2|]. simpl in H3. lia. }
  destruct Hrun as (os & out & Hd & H1 & H2 & H3).
  exists os, out. split; [exact Hd|]. split; [exact H1|].
  split; [exact H2|]. split; [exact H3|].
  intros fuel Hle. eapply drain_more_fuel; eassumption.
Qed.

Lemma orders_terminates_on_trees_witness :
  exists os out,
    drain DefaultContext 7 (orders examples.deep_right_bids) = (os, out)
    /\ out <> Unfinished
    /\ out <> Failed IndexError
    /\ (List.length os <= 5)%nat
    /\ forall fuel, (7 <= fuel)%nat ->
                    drain DefaultContext fuel (orders examples.deep_right_bids)
                    = (os, out).
Proof.
  apply (orders_terminates_on_trees DefaultContext examples.deep_right_bids
           examples.deep_right_tree).
  - reflexivity.
  - vm_compute. reflexivity.
Defined.

(** ** The order of the traversal *)

(** C1 fails on the code. [deep_right_bids] is a valid bids side with
    three orders at the prices 1, 2 and 3, ordered by key, and
    [orders()] yields the prices 1, 3, 2, which is not non-increasing;
    [deep_left_asks] is a valid asks side with the same orders and
    [orders()] yields 3, 1, 2, which is not non-decreasing.  The loop
    takes the next index from the end of [stack] and puts the children
    at its front, so the nodes leave in the order in which they
    entered. *)
Theorem orders_prices_out_of_order :
  (valid_side examples.deep_right_bids examples.deep_right_tree = true
   /\ exists os,
        drain DefaultContext 7 (orders examples.deep_right_bids)
        = (os, Finished)
        /\ map side os = [BUY; BUY; BUY]
        /\ prices os = [1; 3; 2]%Q
        /\ non_increasing (prices os) = false)
  /\ (valid_side examples.deep_left_asks examples.deep_left_tree = true
      /\ exists os,
           drain DefaultContext 7 (orders examples.deep_left_asks)
           = (os, Finished)
           /\ map side os = [SELL; SELL; SELL]
           /\ prices os = [3; 1; 2]%Q
           /\ non_decreasing (prices os) = false).
Proof.
  split; (split; [vm_compute; reflexivity|]);
    eexists; (split; [vm_compute; reflexivity|]);
    repeat split; vm_compute; reflexivity.
Qed.

(** C2 fails on the code. On the bids side [deep_right_bids] the loop
    visits the slots 0, 2, 1, 4, 3: slot 1, which is the [child0]
    subtree of the root, is visited before the slots 4 and 3 of the
    [child1] subtree, where a depth-first traversal visits 0, 2, 4, 3,
    1.  On the asks side [deep_left_asks] it visits 0, 1, 4, 2, 3: slot
    4, the [child1] subtree of the root, is visited before the slots 2
    and 3 of the [child0] subtree, where a depth-first traversal visits
    0, 1, 2, 3, 4. *)
Theorem orders_visits_not_depth_first :
  (unfolds (nodes examples.deep_right_bids) examples.deep_right_tree = true
   /\ visits DefaultContext 7 (orders examples.deep_right_bids)
      = [0; 2; 1; 4; 3]
   /\ depth_first BUY examples.deep_right_tree = [0; 2; 4; 3; 1]
   /\ subtrees_in_order BUY
        (visits DefaultContext 7 (orders examples.deep_right_bids))
        examples.deep_right_tree = false
   /\ subtrees_in_order BUY (depth_first BUY examples.deep_right_tree)
        examples.deep_right_tree = true)
  /\ (unfolds (nodes examples.deep_left_asks) examples.deep_left_tree = true
      /\ visits DefaultContext 7 (orders examples.deep_left_asks)
         = [0; 1; 4; 2; 3]
      /\ depth_first SELL examples.deep_left_tree = [0; 1; 2; 3; 4]
      /\ subtrees_in_order SELL
           (visits DefaultContext 7 (orders examples.deep_left_asks))
           examples.deep_left_tree = false
      /\ subtrees_in_order SELL (depth_first SELL examples.deep_left_tree)
           examples.deep_left_tree = true).
Proof.
  repeat split; vm_compute; reflexivity.
Qed.

(** *** What the depth-first order would give *)

Lemma chain_app {A : Type} (rel : A -> A -> bool) (l1 l2 : list A) :
  chain rel l1 = true -> chain rel l2 = true ->
  (forall a b, In a l1 -> In b l2 -> rel a b = true) ->
  chain rel (l1 ++ l2) = true.
Proof.
  induction l1 as [|a l1 IH]; intros H1 H2 H; [exact H2|].
  destruct l1 as [|a' l1].
  - simpl. destruct l2 as [|b l2]; [reflexivity|].
    simpl in H2 |- *. rewrite (H a b); [exact H2| now left | now left].
  - simpl in H1 |- *. apply andb_true_iff in H1. destruct H1 as [Ha H1].
    rewrite Ha. simpl. apply IH; [exact H1 | exact H2 |].
    intros x y Hx Hy. apply H; [now right | exact Hy].
Qed.

Lemma keys_at_app (slab : list layouts.Node) (l1 l2 : list Z) :
  keys_at slab (l1 ++ l2) = keys_at slab l1 ++ keys_at slab l2.
Proof. unfold keys_at. apply flat_map_app. Qed.

(** In the depth-first order the leaves are met from [child0] to
    [child1] on the sell side and from [child1] to [child0] on the buy
    side. *)
Lemma keys_at_depth_first (slab : list layouts.Node) (tr : tree) :
  unfolds slab tr = true ->
  keys_at slab (depth_first SELL tr) = tree_keys slab tr
  /\ keys_at slab (depth_first BUY tr) = rev (tree_keys slab tr).
Proof.
  induction tr as [i|i l IHl r IHr|i]; simpl; intros H.
  - destruct (getitem slab i) as [e|[|c|kp koid q ow cid|nx]];
      try discriminate. split; reflexivity.
  - destruct (getitem slab i) as [e|[|[c0 c1]|kp koid q ow cid|nx]];
      try discriminate.
    apply andb_true_iff in H. destruct H as [H Hr].
    apply andb_true_iff in H. destruct H as [_ Hl].
    destruct (IHl Hl) as [Hl1 Hl2]. destruct (IHr Hr) as [Hr1 Hr2].
    rewrite !keys_at_app, Hl1, Hl2, Hr1, Hr2, rev_app_distr.
    split; reflexivity.
  - destruct (getitem slab i) as [e|[|c|kp koid q ow cid|nx]];
      try discriminate; split; reflexivity.
Qed.

(** On a tree ordered by key, the keys met in the depth-first order
    ascend on the sell side and descend on the buy side: the order C1
    asks for is the one of the traversal C2 describes. *)
Lemma depth_first_keys_sorted (slab : list layouts.Node) (tr : tree) :
  unfolds slab tr = true ->
  key_ordered slab tr = true ->
  chain key_ltb (keys_at slab (depth_first SELL tr)) = true
  /\ chain (fun a b => key_ltb b a) (keys_at slab (depth_first BUY tr))
     = true.
Proof.
  intros Hunf Hord.
  destruct (keys_at_depth_first slab tr Hunf) as [-> ->].
  clear Hunf. induction tr as [i|i l IHl r IHr|i]; simpl in *.
  - destruct (getitem slab i) as [e|[|c|kp koid q ow cid|nx]];
      split; reflexivity.
  - apply andb_true_iff in Hord. destruct Hord as [Hord Hr].
    apply andb_true_iff in Hord. destruct Hord as [Hall Hl].
    destruct (IHl Hl) as [Hl1 Hl2]. destruct (IHr Hr) as [Hr1 Hr2].
    rewrite forallb_forall in Hall.
    assert (Hlt : forall a b, In a (tree_keys slab l) ->
                              In b (tree_keys slab r) ->
                              key_ltb a b = true).
    { intros a b Ha Hb. specialize (Hall a Ha).
      rewrite forallb_forall in Hall. apply Hall. exact Hb. }
    split.
    + apply chain_app; assumption.
    + rewrite rev_app_distr. apply chain_app; [assumption..|].
      intros a b Ha Hb. apply Hlt; apply in_rev; assumption.
  - split; reflexivity.
Qed.

(** ** Notifications for other addresses *)

Lemma store_set_other {A : Type} (l : list A) (i j : nat) (a : A) :
  i <> j -> nth_error (store_set l i a) j = nth_error l j.
Proof.
  revert i j. induction l as [|x l IH]; intros i j Hij; [reflexivity|].
  destruct i as [|i], j as [|j]; simpl; try reflexivity; try congruence.
  apply IH. congruence.
Qed.

Lemma store_set_snoc {A : Type} (l : list A) (x y : A) :
  store_set (l ++ [x]) (List.length l) y = l ++ [y].
Proof.
  induction l as [|a l IH]; simpl; [reflexivity|]. now rewrite IH.
Qed.

Lemma keeps_refl {item : Type} (watcher : ref) (w : World item) :
  keeps watcher w w.
Proof. split; reflexivity. Qed.

Lemma keeps_trans {item : Type} (watcher : ref) (w1 w2 w3 : World item) :
  keeps watcher w1 w2 -> keeps watcher w2 w3 -> keeps watcher w1 w3.
Proof. intros (S1 & O1) (S2 & O2). split; congruence. Qed.

Lemma on_next_keeps {item : Type} (watcher : ref) (w : World item)
    (s : Subscriber) (x : item) :
  s <> Observer watcher -> keeps watcher w (on_next w s x).
Proof.
  intros Hs. destruct s as [o|name]; split; cbn [on_next subscriptions observers];
    try reflexivity.
  apply store_set_other. intros ->. apply Hs. reflexivity.
Qed.

Lemma publish_keeps {item : Type} (watcher : ref) (x : item) :
  forall subscribers (w : World item),
    ~ In (Observer watcher) subscribers ->
    keeps watcher w (publish w subscribers x).
Proof.
  unfold publish.
  induction subscribers as [|s subscribers IH]; intros w Hnot;
    [apply keeps_refl|].
  simpl. eapply keeps_trans.
  - apply (on_next_keeps watcher w s x). intros ->. apply Hnot. now left.
  - apply IH. intros H. apply Hnot. now right.
Qed.

Lemma notify_keeps {PerpOrderBookSide item : Type}
    (parse : Context -> AccountInfo -> PerpMarketDetails
             -> result PerpOrderBookSide)
    (orders : PerpOrderBookSide -> result item)
    (context : Context) (w : World item) (sub watcher : ref)
    (payload : AccountInfo) :
  (forall s, nth_error (subscriptions w) sub = Some s ->
             ~ In (Observer watcher) (publisher_subscribers s)) ->
  keeps watcher w (notify parse orders context w sub payload).
Proof.
  intros Hnot. unfold notify.
  destruct (nth_error (subscriptions w) sub) as [s|]; [|apply keeps_refl].
  destruct (decode_orders parse orders context (sub_market s) payload)
    as [e|x]; [apply keeps_refl|].
  apply publish_keeps. apply Hnot. reflexivity.
Qed.

Lemma deliver_keeps {PerpOrderBookSide item : Type}
    (parse : Context -> AccountInfo -> PerpMarketDetails
             -> result PerpOrderBookSide)
    (orders : PerpOrderBookSide -> result item)
    (context : Context) (w : World item) (watcher : ref) (addr : PublicKey)
    (bytes : list Byte.byte) :
  (forall s, In s (subscriptions w) ->
             In (Observer watcher) (publisher_subscribers s) ->
             sub_address s <> addr) ->
  keeps watcher w (deliver parse orders context w addr bytes).
Proof.
  unfold deliver. generalize (manager w) as subs.
  intros subs. revert w.
  induction subs as [|sub subs IH]; intros w Hown; [apply keeps_refl|].
  simpl.
  assert (Hstep :
    keeps watcher w
      match nth_error (subscriptions w) sub with
      | Some s =>
          if String.eqb (sub_address s) addr
          then notify parse orders context w sub (mkAccountInfo addr bytes)
          else w
      | None => w
      end).
  { destruct (nth_error (subscriptions w) sub) as [s|] eqn:Hs;
      [|apply keeps_refl].
    destruct (String.eqb (sub_address s) addr) eqn:Ha; [|apply keeps_refl].
    apply notify_keeps. intros s' Hs' Hin.
    rewrite Hs in Hs'. injection Hs' as <-.
    apply String.eqb_eq in Ha.
    apply (Hown s); [eapply nth_error_In; eassumption | exact Hin | exact Ha]. }
  eapply keeps_trans; [exact Hstep|].
  apply IH. destruct Hstep as (Hsubs & _). rewrite Hsubs. exact Hown.
Qed.

Lemma deliver_all_keeps {PerpOrderBookSide item : Type}
    (parse : Context -> AccountInfo -> PerpMarketDetails
             -> result PerpOrderBookSide)
    (orders : PerpOrderBookSide -> result item)
    (context : Context) (watcher : ref) (addr : PublicKey)
    (notifications : list (PublicKey * list Byte.byte)) :
  Forall (fun n => fst n <> addr) notifications ->
  forall w : World item,
    (forall s, In s (subscriptions w) ->
               In (Observer watcher) (publisher_subscribers s) ->
               sub_address s = addr) ->
    keeps watcher w (deliver_all parse orders context w notifications).
Proof.
  unfold deliver_all.
  induction 1 as [|n notifications Hn _ IH]; intros w Hown;
    [apply keeps_refl|].
  simpl.
  assert (Hstep : keeps watcher w
                    (deliver parse orders context w (fst n) (snd n))).
  { apply deliver_keeps. intros s Hs Hin Heq.
    apply Hn. rewrite <- Heq. apply Hown; assumption. }
  eapply keeps_trans; [exact Hstep|].
  apply IH. destruct Hstep as (Hsubs & _). rewrite Hsubs. exact Hown.
Qed.

(** The world that a successful construction leaves. *)
Lemma build_effect {PerpOrderBookSide item : Type}
    (parse : Context -> AccountInfo -> PerpMarketDetails
             -> result PerpOrderBookSide)
    (orders : PerpOrderBookSide -> result item)
    (context : Context) (w w' : World item) (perp_market : PerpMarket)
    (side : OrderBookSideType) (watcher : ref) :
  build_perp_orderbook_side_watcher parse orders context w perp_market side
  = (inr watcher, w') ->
  exists info initial initial_orders,
    AccountInfo_load context (watched_address perp_market side) = Some info
    /\ parse context info (underlying_perp_market perp_market) = inr initial
    /\ orders initial = inr initial_orders
    /\ watcher = List.length (observers w)
    /\ w' = mkWorld
              (observers w ++ [mkObserver initial_orders])
              (subscriptions w
               ++ [mkSubscription (watched_address perp_market side)
                     (underlying_perp_market perp_market)
                     [Observer (List.length (observers w));
                      HealthCheckPing "orderbook_side_subscription"]])
              (manager w ++ [List.length (subscriptions w)])
              (health_check w
               ++ [("orderbook_side_subscription",
                    List.length (subscriptions w))])
              (pings w).
Proof.
  unfold build_perp_orderbook_side_watcher.
  fold (watched_address perp_market side). intros H.
  destruct (AccountInfo_load context _) as [info|]; [|discriminate].
  destruct (parse context info _) as [e|initial] eqn:Hparse; [discriminate|].
  unfold new_subscription, manager_add in H.
  cbn [observers subscriptions manager health_check pings] in H.
  destruct (orders initial) as [e|initial_orders] eqn:Horders;
    [discriminate|].
  exists info, initial, initial_orders.
  split; [reflexivity|]. split; [exact Hparse|]. split; [exact Horders|].
  unfold new_observer, health_check_add, publisher_subscribe in H.
  cbn [observers subscriptions manager health_check pings] in H.
  rewrite nth_error_snoc in H.
  cbn [observers subscriptions manager health_check pings
       sub_address sub_market publisher_subscribers app] in H.
  rewrite store_set_snoc in H.
  rewrite nth_error_snoc in H.
  cbn [observers subscriptions manager health_check pings
       sub_address sub_market publisher_subscribers app] in H.
  rewrite store_set_snoc in H.
  injection H as <- <-. split; reflexivity.
Qed.

(** The observer that [build_perp_orderbook_side_watcher] creates is
    subscribed to the publisher of its own subscription only. *)
Lemma watcher_subscribed_to_own_address {PerpOrderBookSide item : Type}
    (parse : Context -> AccountInfo -> PerpMarketDetails
             -> result PerpOrderBookSide)
    (orders : PerpOrderBookSide -> result item)
    (context : Context) (w w' : World item) (perp_market : PerpMarket)
    (side : OrderBookSideType) (watcher : ref) :
  observers_allocated w ->
  build_perp_orderbook_side_watcher parse orders context w perp_market side
  = (inr watcher, w') ->
  forall s, In s (subscriptions w') ->
            In (Observer watcher) (publisher_subscribers s) ->
            sub_address s = watched_address perp_market side.
Proof.
  intros Hok H.
  destruct (build_effect parse orders context w w' perp_market side watcher H)
    as (info & initial & x & _ & _ & _ & -> & ->).
  cbn [subscriptions].
  intros s Hs Hin. apply in_app_or in Hs. destruct Hs as [Hs|[<-|[]]].
  - specialize (Hok s _ Hs Hin). lia.
  - reflexivity.
Qed.

(** C7. When [build_perp_orderbook_side_watcher] returns a watcher, the
    synchronous fetch found the account, [PerpOrderBookSide.parse]
    decoded it and [orders()] of the decoded side returned an item, and
    the latest item of the watcher is that item: in the world the call
    leaves, where no notification has been recorded, and, reading
    [latest] changing nothing, in every world that follows by the
    processing of notifications for other addresses, however many.
    What the item is, a sequence or an object that is consumed by
    iterating it, is decided by the class [PerpOrderBookSide]. *)
Theorem watcher_latest_is_initial_snapshot (PerpOrderBookSide item : Type)
    (PerpOrderBookSide_parse
      : Context -> AccountInfo -> PerpMarketDetails
        -> result PerpOrderBookSide)
    (PerpOrderBookSide_orders : PerpOrderBookSide -> result item)
    (context : Context) (w w' : World item) (perp_market : PerpMarket)
    (side : OrderBookSideType) (watcher : ref) :
  build_perp_orderbook_side_watcher PerpOrderBookSide_parse
    PerpOrderBookSide_orders context w perp_market side
  = (inr watcher, w') ->
  exists info initial initial_orders,
    AccountInfo_load context
      (if OrderBookSideType_eqb side BIDS
       then bids (underlying_perp_market perp_market)
       else asks (underlying_perp_market perp_market)) = Some info
    /\ PerpOrderBookSide_parse context info
         (underlying_perp_market perp_market) = inr initial
    /\ PerpOrderBookSide_orders initial = inr initial_orders
    /\ watcher_latest w' watcher = Some initial_orders
    /\ pings w' = pings w
    /\ (observers_allocated w ->
        forall context' notifications,
          Forall (fun n => fst n <>
                           (if OrderBookSideType_eqb side BIDS
                            then bids (underlying_perp_market perp_market)
                            else asks (underlying_perp_market perp_market)))
                 notifications ->
          watcher_latest
            (deliver_all PerpOrderBookSide_parse PerpOrderBookSide_orders
                         context' w' notifications)
            watcher
          = Some initial_orders).
Proof.
  intros H.
  destruct (build_effect _ _ context w w' perp_market side watcher H)
    as (info & initial & x & Hload & Hparse & Horders & Hw & Hw').
  exists info, initial, x.
  split; [exact Hload|]. split; [exact Hparse|]. split; [exact Horders|].
  assert (Hlatest : watcher_latest w' watcher = Some x).
  { subst watcher w'. unfold watcher_latest. cbn [observers].
    rewrite nth_error_snoc. reflexivity. }
  split; [exact Hlatest|].
  split; [subst w'; reflexivity|].
  intros Hok context' notifications Hothers.
  assert (Hown := watcher_subscribed_to_own_address _ _ context w w'
                    perp_market side watcher Hok H).
  destruct (deliver_all_keeps PerpOrderBookSide_parse
              PerpOrderBookSide_orders context' watcher _ notifications
              Hothers w' Hown) as (_ & Hobs).
  unfold watcher_latest in Hlatest |- *. rewrite Hobs. exact Hlatest.
Qed.

Lemma watcher_latest_is_initial_snapshot_witness :
  exists info initial initial_orders,
    AccountInfo_load examples.ledger "BidsAddress" = Some info
    /\ examples.lazy_parse examples.ledger info (examples.details 100 1 6 6)
       = inr initial
    /\ examples.lazy_orders initial = inr initial_orders
    /\ watcher_latest
         (snd (build_perp_orderbook_side_watcher examples.lazy_parse
                 examples.lazy_orders examples.ledger examples.empty_world
                 examples.market BIDS))
         0%nat
       = Some initial_orders
    /\ pings (snd (build_perp_orderbook_side_watcher examples.lazy_parse
                     examples.lazy_orders examples.ledger
                     examples.empty_world examples.market BIDS))
       = []
    /\ watcher_latest
         (deliver_all examples.lazy_parse examples.lazy_orders
            more_examples.both_sides
            (snd (build_perp_orderbook_side_watcher examples.lazy_parse
                    examples.lazy_orders examples.ledger
                    examples.empty_world examples.market BIDS))
            [("AsksAddress", more_examples.asks_bytes);
             ("Elsewhere", [Byte.x05])])
         0%nat
       = Some initial_orders.
Proof.
  destruct (watcher_latest_is_initial_snapshot _ _ examples.lazy_parse
              examples.lazy_orders examples.ledger examples.empty_world
              (snd (build_perp_orderbook_side_watcher examples.lazy_parse
                      examples.lazy_orders examples.ledger
                      examples.empty_world examples.market BIDS))
              examples.market BIDS 0%nat)
    as (info & initial & x & H1 & H2 & H3 & H4 & H5 & H6).
  - vm_compute. reflexivity.
  - exists info, initial, x.
    split; [exact H1|]. split; [exact H2|]. split; [exact H3|].
    split; [exact H4|]. split; [exact H5|].
    apply H6.
    + intros s o [].
    + constructor; [simpl; discriminate|].
      constructor; [simpl; discriminate|]. constructor.
Defined.

(** A notification for the address of the watcher replaces the latest
    item by the newly decoded one and is recorded by the health check;
    a payload of the wrong size is dropped, the item stays and nothing
    is recorded. *)
Example notification_replaces_latest :
  exists w,
    build_perp_orderbook_side_watcher examples.lazy_parse
      examples.lazy_orders examples.ledger examples.empty_world
      examples.market BIDS = (inr 0%nat, w)
    /\ (exists side,
           examples.lazy_parse examples.ledger
             (mkAccountInfo "BidsAddress" examples.bids_bytes)
             (examples.details 100 1 6 6) = inr side
           /\ watcher_latest
                (deliver examples.lazy_parse examples.lazy_orders
                         examples.ledger w "BidsAddress" examples.bids_bytes)
                0%nat
              = Some (orders side)
           /\ pings (deliver examples.lazy_parse examples.lazy_orders
                             examples.ledger w "BidsAddress"
                             examples.bids_bytes)
              = ["orderbook_side_subscription"])
    /\ deliver examples.lazy_parse examples.lazy_orders examples.ledger w
               "BidsAddress" [Byte.x05] = w
    /\ deliver examples.lazy_parse examples.lazy_orders examples.ledger w
               "AsksAddress" examples.bids_bytes = w.
Proof.
  eexists. split; [vm_compute; reflexivity|].
  split; [|split; vm_compute; reflexivity].
  eexists. split; [vm_compute; reflexivity|].
  split; vm_compute; reflexivity.
Qed.

(** * Further properties of the code *)

(** ** Indexing the slab *)

Lemma getitem_out_of_range {A : Type} (l : list A) (i : Z) :
  out_of_range (List.length l) i -> getitem l i = inl IndexError.
Proof.
  unfold out_of_range, getitem. cbv zeta. intros H.
  destruct (i <? 0) eqn:E;
    [apply Z.ltb_lt in E | apply Z.ltb_ge in E];
    match goal with
    | |- (if ?b then _ else _) = _ => destruct b eqn:Hb; [|reflexivity]
    end;
    apply andb_true_iff in Hb; destruct Hb as [H1 H2];
    apply Z.leb_le in H1; apply Z.ltb_lt in H2; lia.
Qed.

Lemma getitem_in_range {A : Type} (l : list A) (i : Z) :
  ~ out_of_range (List.length l) i -> exists a, getitem l i = inr a.
Proof.
  unfold out_of_range, getitem. cbv zeta. intros H.
  set (j := if i <? 0 then Z.of_nat (List.length l) + i else i).
  assert (Hj : 0 <= j < Z.of_nat (List.length l)).
  { subst j. destruct (i <? 0) eqn:E;
      [apply Z.ltb_lt in E | apply Z.ltb_ge in E]; lia. }
  replace ((0 <=? j) && (j <? Z.of_nat (List.length l))) with true.
  - destruct (nth_error l (Z.to_nat j)) as [a|] eqn:Hn;
      [eexists; reflexivity|].
    apply nth_error_None in Hn. lia.
  - symmetry. apply andb_true_iff.
    split; [apply Z.leb_le | apply Z.ltb_lt]; lia.
Qed.

Lemma getitem_raises {A : Type} (l : list A) (i : Z) (e : exn) :
  getitem l i = inl e -> e = IndexError.
Proof.
  unfold getitem, raise, ret. cbv zeta.
  destruct (_ && _); [destruct (nth_error _ _)|]; congruence.
Qed.

Lemma out_of_range_dec (n : nat) (i : Z) :
  {out_of_range n i} + {~ out_of_range n i}.
Proof.
  unfold out_of_range.
  destruct (Z_lt_dec i (- Z.of_nat n)); [left; now left|].
  destruct (Z_le_dec (Z.of_nat n) i); [left; now right|].
  right. intros [H|H]; contradiction.
Qed.

(** X1. On a side with [leaf_count != 0], the first loop iteration of
    [orders()] raises [IndexError] before any order is yielded exactly
    when [root_node] is outside of what Python accepts as an index of
    [nodes], that is below [-len(nodes)] or at least [len(nodes)]; the
    iteration then ends with that exception however long it is run. *)
Theorem orders_raises_on_dangling_root (dctx : DecimalContext) (self : t) :
  leaf_count self <> 0 ->
  (drain dctx 2 (orders self) = ([], Failed IndexError)
   <-> out_of_range (List.length (nodes self)) (root_node self))
  /\ (out_of_range (List.length (nodes self)) (root_node self) ->
      forall fuel,
        drain dctx (S (S fuel)) (orders self) = ([], Failed IndexError)).
Proof.
  intros Hlc. apply Z.eqb_neq in Hlc.
  assert (Hout : out_of_range (List.length (nodes self)) (root_node self) ->
                 forall fuel,
                   drain dctx (S (S fuel)) (orders self)
                   = ([], Failed IndexError)).
  { intros H fuel. rewrite drain_S. unfold orders, resume. rewrite Hlc.
    rewrite drain_S. unfold resume.
    cbn [pop rev app].
    rewrite (getitem_out_of_range _ _ H). reflexivity. }
  split; [|exact Hout]. split; [|intros H; apply (Hout H 0%nat)].
  intros Hd.
  destruct (out_of_range_dec (List.length (nodes self)) (root_node self))
    as [H|H]; [exact H|exfalso].
  destruct (getitem_in_range _ _ H) as [node Hget].
  rewrite drain_S in Hd. unfold orders, resume in Hd. rewrite Hlc in Hd.
  rewrite drain_S in Hd. unfold resume in Hd.
  cbn [pop rev app] in Hd.
  rewrite Hget in Hd.
  destruct node as [|[c0 c1]|kp koid q ow cid|nx].
  - discriminate Hd.
  - destruct (Side_eqb _ BUY); discriminate Hd.
  - destruct (leaf_order dctx self _ kp koid q ow cid) as [e|o] eqn:Hl.
    + injection Hd as ->. now apply leaf_order_raises in Hl.
    + discriminate Hd.
  - discriminate Hd.
Qed.

Lemma orders_raises_on_dangling_root_witness :
  drain DefaultContext 9 (orders more_examples.dangling_root)
  = ([], Failed IndexError).
Proof.
  refine (proj2 (orders_raises_on_dangling_root DefaultContext
                   more_examples.dangling_root _) _ 7%nat).
  - vm_compute. discriminate.
  - right. vm_compute. discriminate.
Defined.

(** ** A slab with a cycle *)

Lemma run_on_self_loop (dctx : DecimalContext) (self : t) (sd : Side)
    (r : Z) :
  getitem (nodes self) r = inr (layouts.Inner (r, r)) ->
  forall fuel k,
    drain dctx fuel (Suspended self sd (repeat r (S k))) = ([], Unfinished)
    /\ advance dctx fuel (Suspended self sd (repeat r (S k)))
       = Suspended self sd (repeat r (S k + fuel)).
Proof.
  intros Hget fuel.
  induction fuel as [|fuel IH]; intros k.
  - simpl. rewrite Nat.add_0_r. split; reflexivity.
  - assert (Hr : resume dctx (Suspended self sd (repeat r (S k)))
                 = (Continue, Suspended self sd (repeat r (S (S k))))).
    { unfold resume.
      replace (repeat r (S k)) with (repeat r k ++ [r])
        by (symmetry; apply (repeat_cons k r)).
      rewrite pop_snoc, Hget.
      destruct (Side_eqb sd BUY); reflexivity. }
    rewrite drain_S. cbn [advance]. rewrite Hr. cbn [snd].
    destruct (IH (S k)) as [Hd Ha]. rewrite Hd, Ha.
    rewrite Nat.add_succ_r. split; reflexivity.
Qed.

(** X2. [orders()] has no guard against cycles: on a side with
    [leaf_count != 0] whose root slot is an inner node with itself as
    both children, the iteration never ends and never yields, however
    many steps it is given, and every loop iteration makes [stack] one
    entry longer. *)
Theorem orders_never_ends_on_self_loop (dctx : DecimalContext) (self : t) :
  leaf_count self <> 0 ->
  getitem (nodes self) (root_node self)
  = inr (layouts.Inner (root_node self, root_node self)) ->
  forall fuel,
    drain dctx fuel (orders self) = ([], Unfinished)
    /\ exists sd,
         advance dctx (S fuel) (orders self)
         = Suspended self sd (repeat (root_node self) (S fuel)).
Proof.
  intros Hlc Hget fuel. apply Z.eqb_neq in Hlc.
  set (sd := if layouts.DATA_TYPE_eqb (data_type (meta_data self))
                                      layouts.Bids
             then BUY else SELL).
  assert (Hr : resume dctx (orders self)
               = (Continue, Suspended self sd (repeat (root_node self) 1))).
  { unfold orders, resume. rewrite Hlc. reflexivity. }
  split.
  - destruct fuel as [|fuel]; [reflexivity|].
    rewrite drain_S, Hr.
    apply (run_on_self_loop dctx self sd _ Hget fuel 0%nat).
  - exists sd. cbn [advance]. rewrite Hr. cbn [snd].
    apply (run_on_self_loop dctx self sd _ Hget fuel 0%nat).
Qed.

Lemma orders_never_ends_on_self_loop_witness :
  drain DefaultContext 1000 (orders more_examples.self_loop)
  = ([], Unfinished)
  /\ exists sd,
       advance DefaultContext 1001 (orders more_examples.self_loop)
       = Suspended more_examples.self_loop sd
                   (repeat (root_node more_examples.self_loop) 1001).
Proof.
  apply (orders_never_ends_on_self_loop DefaultContext
           more_examples.self_loop).
  - vm_compute. discriminate.
  - vm_compute. reflexivity.
Defined.

(** ** The account behind a side *)

Lemma from_layout_cases (layout : layouts.Container) (info : AccountInfo)
    (v : Version) (details : PerpMarketDetails) :
  (0 <= layouts.version (layouts.meta_data layout) + 1 <= 5
   /\ exists side, from_layout layout info v details = inr side)
  \/ (~ 0 <= layouts.version (layouts.meta_data layout) + 1 <= 5
      /\ from_layout layout info v details = inl ValueError).
Proof.
  destruct (from_layout_version layout info v details) as [Hok Hbad].
  destruct (Z_le_dec 0 (layouts.version (layouts.meta_data layout) + 1))
    as [H0|H0];
    [destruct (Z_le_dec (layouts.version (layouts.meta_data layout) + 1) 5)
       as [H5|H5]|].
  - left. split; [lia|]. apply Hok. lia.
  - right. split; [lia|]. apply Hbad. lia.
  - right. split; [lia|]. apply Hbad. lia.
Qed.

(** X3. [OrderBookSide.load] returns a side exactly when the fetch
    finds an account at the address, its data has the size of the
    layout, the layout decodes it and the version tag of the header is
    below 5; the side is then what [from_layout] builds from the decoded
    layout, with the fetched account, [Version.V1] and the market
    details given.  It raises the not-found exception exactly when there
    is no account, the size exception exactly when the size differs,
    what the layout decoder raised when that raises, and [ValueError]
    when the decoded version tag is 5 or more. *)
Theorem load_decodes_the_fetched_account (schema : layouts.Schema)
    (context : Context) (addr : PublicKey) (details : PerpMarketDetails) :
  (forall side,
      load schema context addr details = inr side
      <-> exists bytes layout,
            accounts context addr = Some bytes
            /\ List.length bytes = layouts.sizeof schema
            /\ layouts.parse schema bytes = inr layout
            /\ 0 <= layouts.version (layouts.meta_data layout) + 1 <= 5
            /\ from_layout layout (mkAccountInfo addr bytes) V1 details
               = inr side)
  /\ (forall e,
         load schema context addr details = inl e
         <-> (accounts context addr = None
              /\ e = Exception (not_found_message addr))
             \/ (exists bytes,
                    accounts context addr = Some bytes
                    /\ List.length bytes <> layouts.sizeof schema
                    /\ e = Exception
                             (size_mismatch_message (List.length bytes)
                                                    (layouts.sizeof schema)))
             \/ (exists bytes,
                    accounts context addr = Some bytes
                    /\ List.length bytes = layouts.sizeof schema
                    /\ layouts.parse schema bytes = inl e)
             \/ (exists bytes layout,
                    accounts context addr = Some bytes
                    /\ List.length bytes = layouts.sizeof schema
                    /\ layouts.parse schema bytes = inr layout
                    /\ ~ 0 <= layouts.version (layouts.meta_data layout) + 1
                         <= 5
                    /\ e = ValueError)).
Proof.
  unfold load, AccountInfo_load, parse, bind, raise. cbv zeta.
  destruct (accounts context addr) as [bytes|] eqn:Hacc; cbn [data].
  - destruct (List.length bytes =? layouts.sizeof schema)%nat eqn:Hlen;
      cbn [negb].
    + apply Nat.eqb_eq in Hlen.
      destruct (layouts.parse schema bytes) as [e0|layout] eqn:Hp.
      * split.
        -- intros side. split; [discriminate|].
           intros (b & l & Hb & _ & Hl & _).
           injection Hb as <-. congruence.
        -- intros e. split.
           ++ intros H. injection H as <-. right. right. left.
              exists bytes. auto.
           ++ intros [[H _]|[(b & Hb & Hne & _)|[(b & Hb & _ & Hl)
                     |(b & l & Hb & _ & Hl & _)]]].
              ** discriminate.
              ** injection Hb as <-. contradiction.
              ** injection Hb as <-. congruence.
              ** injection Hb as <-. congruence.
      * destruct (from_layout_cases layout (mkAccountInfo addr bytes) V1
                    details) as [[Hv [side0 Hs]]|[Hv Hs]]; rewrite Hs.
        -- split.
           ++ intros side. split.
              ** intros H. injection H as <-. exists bytes, layout. auto.
              ** intros (b & l & Hb & _ & Hl & _ & Hf).
                 injection Hb as <-. rewrite Hp in Hl. injection Hl as <-.
                 congruence.
           ++ intros e. split; [discriminate|].
              intros [[H _]|[(b & Hb & Hne & _)|[(b & Hb & _ & Hl)
                     |(b & l & Hb & _ & Hl & Hbad & _)]]].
              ** discriminate.
              ** injection Hb as <-. contradiction.
              ** injection Hb as <-. congruence.
              ** injection Hb as <-. rewrite Hp in Hl. injection Hl as <-.
                 contradiction.
        -- split.
           ++ intros side. split; [discriminate|].
              intros (b & l & Hb & _ & Hl & Hok & _).
              injection Hb as <-. rewrite Hp in Hl. injection Hl as <-.
              contradiction.
           ++ intros e. split.
              ** intros H. injection H as <-. right. right. right.
                 exists bytes, layout. auto.
              ** intros [[H _]|[(b & Hb & Hne & _)|[(b & Hb & _ & Hl)
                        |(b & l & Hb & _ & _ & _ & ->)]]].
                 --- discriminate.
                 --- injection Hb as <-. contradiction.
                 --- injection Hb as <-. congruence.
                 --- reflexivity.
    + apply Nat.eqb_neq in Hlen. split.
      * intros side. split; [discriminate|].
        intros (b & l & Hb & Hl & _). injection Hb as <-. contradiction.
      * intros e. split.
        -- intros H. injection H as <-. right. left. exists bytes. auto.
        -- intros [[H _]|[(b & Hb & _ & ->)|[(b & Hb & Hl & _)
                  |(b & l & Hb & Hl & _)]]].
           ++ discriminate.
           ++ injection Hb as <-. reflexivity.
           ++ injection Hb as <-. contradiction.
           ++ injection Hb as <-. contradiction.
  - split.
    + intros side. split; [discriminate|].
      intros (b & l & Hb & _). discriminate.
    + intros e. split.
      * intros H. injection H as <-. left. auto.
      * intros [[_ ->]|[(b & Hb & _)|[(b & Hb & _)|(b & l & Hb & _)]]];
          [reflexivity|discriminate|discriminate|discriminate].
Qed.

Lemma load_decodes_the_fetched_account_witness :
  load (reduced_layout.schema 3) more_examples.truncated "BidsAddress"
       (examples.details 100 1 6 6)
  = inl (Exception
           "OrderBookSide data length (1) does not match expected size (19)").
Proof.
  apply (proj2 (proj2 (load_decodes_the_fetched_account
                         (reduced_layout.schema 3) more_examples.truncated
                         "BidsAddress" (examples.details 100 1 6 6)) _)).
  right. left. exists [Byte.x05].
  split; [reflexivity|]. split; [simpl; discriminate|reflexivity].
Defined.

(** ** The loop as a queue *)

Lemma resume_pop (dctx : DecimalContext) (self : t) (sd : Side)
    (st : list Z) (i : Z) :
  resume dctx (Suspended self sd (st ++ [i])) =
  match getitem (nodes self) i with
  | inl e => (Raise e, Closed)
  | inr (layouts.Leaf kp koid q ow cid) =>
      match leaf_order dctx self sd kp koid q ow cid with
      | inl e => (Raise e, Closed)
      | inr o => (Yield o, Suspended self sd st)
      end
  | inr (layouts.Inner (c0, c1)) =>
      if Side_eqb sd BUY
      then (Continue, Suspended self sd (c0 :: c1 :: st))
      else (Continue, Suspended self sd (c1 :: c0 :: st))
  | inr _ => (Continue, Suspended self sd st)
  end.
Proof.
  unfold resume. rewrite pop_snoc.
  destruct (getitem (nodes self) i) as [e|[|[c0 c1]|kp koid q ow cid|nx]];
    reflexivity.
Qed.

Lemma visits_pop (dctx : DecimalContext) (n : nat) (self : t) (sd : Side)
    (st : list Z) (i : Z) :
  visits dctx (S n) (Suspended self sd (st ++ [i]))
  = i :: visits dctx n (snd (resume dctx (Suspended self sd (st ++ [i])))).
Proof. cbn [visits next_index]. rewrite pop_snoc. reflexivity. Qed.

Lemma stack_of_pushed (sd : Side) (i : Z) (l r : tree) (q : list tree) :
  (if Side_eqb sd BUY
   then tree_index l :: tree_index r :: rev (map tree_index q)
   else tree_index r :: tree_index l :: rev (map tree_index q))
  = rev (map tree_index (q ++ pushed sd (TInner i l r))).
Proof.
  rewrite map_app, rev_app_distr. simpl.
  destruct (Side_eqb sd BUY); reflexivity.
Qed.

Lemma unfolds_pushed (slab : list layouts.Node) (sd : Side) (t : tree) :
  unfolds slab t = true -> forallb (unfolds slab) (pushed sd t) = true.
Proof.
  destruct t as [j|j l r|j]; simpl; intros H; try reflexivity.
  destruct (getitem slab j) as [e|[|[c0 c1]|kp koid q ow cid|nx]];
    try discriminate.
  apply andb_true_iff in H. destruct H as [H Hr].
  apply andb_true_iff in H. destruct H as [_ Hl].
  destruct (Side_eqb sd BUY); simpl; rewrite Hl, Hr; reflexivity.
Qed.

(** An iteration that runs to its end serves the trees on [stack] as a
    queue, and yields one order for each leaf it visits, with the order
    id of that leaf. *)
Lemma run_is_served (dctx : DecimalContext) (self : t) (sd : Side) :
  forall n q os,
    forallb (unfolds (nodes self)) q = true ->
    drain dctx n (Suspended self sd (rev (map tree_index q)))
    = (os, Finished) ->
    served sd q
           (visits dctx n (Suspended self sd (rev (map tree_index q))))
    /\ map id os
       = map snd
           (keys_at (nodes self)
              (visits dctx n (Suspended self sd (rev (map tree_index q))))).
Proof.
  induction n as [|n IH]; intros q os Hunf Hd; [discriminate|].
  destruct q as [|t q].
  - simpl in Hd |- *. injection Hd as <-. split; [constructor|reflexivity].
  - cbn [map rev] in Hd |- *. cbn [forallb] in Hunf.
    apply andb_true_iff in Hunf. destruct Hunf as [Hunft Hunf].
    rewrite visits_pop. rewrite drain_S in Hd.
    assert (Hpushed := unfolds_pushed (nodes self) sd t Hunft).
    rewrite resume_pop in Hd |- *.
    unfold keys_at. cbn [flat_map]. fold (keys_at (nodes self)).
    destruct t as [j|j l r|j]; cbn [tree_index unfolds] in Hunft, Hd |- *.
    + destruct (getitem (nodes self) j) as [e|[|c|kp koid qt ow cid|nx]];
        try discriminate.
      destruct (leaf_order dctx self sd kp koid qt ow cid) as [e|o] eqn:Hl;
        [discriminate|].
      destruct (drain dctx n (Suspended self sd (rev (map tree_index q))))
        as [os' out'] eqn:Hd'.
      injection Hd as <- ->. cbn [snd].
      destruct (IH q os' Hunf Hd') as [Hs Hids].
      split.
      * constructor. simpl. rewrite app_nil_r. exact Hs.
      * apply leaf_order_fields in Hl. destruct Hl as (Hid & _).
        simpl. rewrite Hid, Hids. reflexivity.
    + destruct (getitem (nodes self) j) as [e|[|[c0 c1]|kp koid qt ow cid|nx]];
        try discriminate.
      apply andb_true_iff in Hunft. destruct Hunft as [Hunft _].
      apply andb_true_iff in Hunft. destruct Hunft as [Hunft _].
      apply andb_true_iff in Hunft. destruct Hunft as [Hc0 Hc1].
      apply Z.eqb_eq in Hc0, Hc1. subst c0 c1.
      assert (Hst := stack_of_pushed sd j l r q).
      assert (Hunf' : forallb (unfolds (nodes self))
                              (q ++ pushed sd (TInner j l r)) = true).
      { rewrite forallb_app, Hunf, Hpushed. reflexivity. }
      destruct (Side_eqb sd BUY); cbn [snd]; rewrite Hst in Hd |- *;
        destruct (IH _ os Hunf' Hd) as [Hs Hids];
        (split; [constructor; exact Hs | simpl; exact Hids]).
    + destruct (getitem (nodes self) j) as [e|[|c|kp koid qt ow cid|nx]];
        try discriminate; cbn [snd];
        destruct (IH q os Hunf Hd) as [Hs Hids];
        (split; [constructor; simpl; rewrite app_nil_r; exact Hs
                | simpl; exact Hids]).
Qed.

(** The same for an iteration from its start. *)
Lemma orders_is_served (dctx : DecimalContext) (self : t) (tr : tree)
    (fuel : nat) (os : list Order) :
  leaf_count self <> 0 ->
  tree_index tr = root_node self ->
  unfolds (nodes self) tr = true ->
  drain dctx fuel (orders self) = (os, Finished) ->
  served (side_of self) [tr] (visits dctx fuel (orders self))
  /\ map id os
     = map snd (keys_at (nodes self) (visits dctx fuel (orders self))).
Proof.
  intros Hlc Hroot Hunf Hd. apply Z.eqb_neq in Hlc. unfold side_of.
  destruct fuel as [|n]; [discriminate|].
  rewrite drain_S in Hd. unfold orders in Hd |- *.
  cbn [visits next_index]. unfold resume in Hd |- *.
  rewrite Hlc in Hd |- *. cbn [snd].
  rewrite <- Hroot in Hd |- *.
  apply (run_is_served dctx self _ n [tr] os); [|exact Hd].
  simpl. rewrite Hunf. reflexivity.
Qed.

(** *** One order for each leaf *)

Lemma served_keys (slab : list layouts.Node) (sd : Side) (q : list tree)
    (vis : list Z) :
  served sd q vis ->
  forallb (unfolds slab) q = true ->
  Permutation (keys_at slab vis) (flat_map (tree_keys slab) q).
Proof.
  induction 1 as [|t q vis Hs IH]; intros Hunf; [constructor|].
  cbn [forallb] in Hunf. apply andb_true_iff in Hunf.
  destruct Hunf as [Hunft Hunf].
  assert (Hq : Permutation (keys_at slab vis)
                 (flat_map (tree_keys slab) q
                  ++ flat_map (tree_keys slab) (pushed sd t))).
  { rewrite <- flat_map_app. apply IH.
    rewrite forallb_app, Hunf. apply unfolds_pushed. exact Hunft. }
  unfold keys_at. cbn [flat_map]. fold (keys_at slab).
  destruct t as [j|j l r|j]; cbn [tree_index unfolds tree_keys pushed] in *.
  - destruct (getitem slab j) as [e|[|c|kp koid qt ow cid|nx]];
      try discriminate.
    simpl in Hq |- *. rewrite app_nil_r in Hq.
    constructor. exact Hq.
  - destruct (getitem slab j) as [e|[|[c0 c1]|kp koid qt ow cid|nx]];
      try discriminate.
    simpl. rewrite Hq.
    rewrite Permutation_app_comm. apply Permutation_app_tail.
    destruct (Side_eqb sd BUY); simpl; rewrite app_nil_r;
      [apply Permutation_app_comm | apply Permutation_refl].
  - destruct (getitem slab j) as [e|[|c|kp koid qt ow cid|nx]];
      try discriminate; simpl in Hq |- *; rewrite app_nil_r in Hq; exact Hq.
Qed.

Lemma finished_ids_of_leaves (dctx : DecimalContext) (self : t) (tr : tree)
    (fuel : nat) (os : list Order) :
  leaf_count self <> 0 ->
  tree_index tr = root_node self ->
  unfolds (nodes self) tr = true ->
  drain dctx fuel (orders self) = (os, Finished) ->
  Permutation (map id os) (map snd (tree_keys (nodes self) tr)).
Proof.
  intros Hlc Hroot Hunf Hd.
  destruct (orders_is_served dctx self tr fuel os Hlc Hroot Hunf Hd)
    as [Hs Hids].
  rewrite Hids. apply Permutation_map.
  assert (Hk := served_keys (nodes self) _ [tr] _ Hs).
  simpl in Hk. rewrite app_nil_r, Hunf in Hk. apply Hk. reflexivity.
Qed.

(** X4. On a side with [leaf_count != 0] whose node graph below
    [root_node] unfolds into a tree, an iteration of [orders()] that
    runs to its end yields exactly one order for each leaf of the tree:
    the order ids yielded are those of the leaves up to their order, and
    there are as many orders as leaves.  Slots that are neither leaves
    nor inner nodes are passed over. *)
Theorem orders_one_per_leaf (dctx : DecimalContext) (self : t) (tr : tree)
    (fuel : nat) (os : list Order) :
  leaf_count self <> 0 ->
  tree_index tr = root_node self ->
  unfolds (nodes self) tr = true ->
  drain dctx fuel (orders self) = (os, Finished) ->
  Permutation (map id os) (map snd (tree_keys (nodes self) tr))
  /\ List.length os = List.length (tree_keys (nodes self) tr).
Proof.
  intros Hlc Hroot Hunf Hd.
  assert (Hp := finished_ids_of_leaves dctx self tr fuel os
                  Hlc Hroot Hunf Hd).
  split; [exact Hp|].
  apply Permutation_length in Hp. rewrite !length_map in Hp. exact Hp.
Qed.

Lemma orders_one_per_leaf_witness :
  Permutation
    (map id (fst (drain DefaultContext 7 (orders examples.deep_right_bids))))
    (map snd (tree_keys (nodes examples.deep_right_bids)
                        examples.deep_right_tree))
  /\ List.length (fst (drain DefaultContext 7
                             (orders examples.deep_right_bids)))
     = List.length (tree_keys (nodes examples.deep_right_bids)
                              examples.deep_right_tree).
Proof.
  apply (orders_one_per_leaf DefaultContext examples.deep_right_bids
           examples.deep_right_tree 7).
  - vm_compute. discriminate.
  - reflexivity.
  - vm_compute. reflexivity.
  - vm_compute. reflexivity.
Defined.

(** *** Level by level *)

Lemma served_levels (sd : Side) :
  forall q p vis,
    served sd (flat_map (pushed sd) p ++ flat_map (pushed sd) q) vis ->
    served sd (q ++ flat_map (pushed sd) p) (map tree_index q ++ vis).
Proof.
  induction q as [|a q IH]; intros p vis H.
  - simpl in H |- *. rewrite app_nil_r in H. exact H.
  - simpl. constructor. rewrite <- app_assoc.
    replace (flat_map (pushed sd) p ++ pushed sd a)
      with (flat_map (pushed sd) (p ++ [a]))
      by (rewrite flat_map_app; simpl; rewrite app_nil_r; reflexivity).
    apply IH. rewrite flat_map_app. simpl flat_map.
    rewrite app_nil_r, <- app_assoc. exact H.
Qed.

Lemma tree_depth_pos (t : tree) : (1 <= tree_depth t)%nat.
Proof. destruct t; simpl; lia. Qed.

Lemma pushed_depth (sd : Side) (d : nat) (q : list tree) :
  Forall (fun t => (tree_depth t <= S d)%nat) q ->
  Forall (fun t => (tree_depth t <= d)%nat) (flat_map (pushed sd) q).
Proof.
  induction 1 as [|t q Ht _ IH]; simpl; [constructor|].
  apply Forall_app. split; [|exact IH].
  destruct t as [j|j l r|j]; simpl in Ht |- *; try constructor.
  destruct (Side_eqb sd BUY); repeat constructor; lia.
Qed.

Lemma level_order_served (sd : Side) :
  forall d q,
    Forall (fun t => (tree_depth t <= d)%nat) q ->
    served sd q (level_order sd d q).
Proof.
  induction d as [|d IH]; intros q Hq.
  - destruct q as [|t q]; [constructor|].
    inversion Hq as [|? ? Ht _]; subst.
    pose proof (tree_depth_pos t). lia.
  - simpl.
    pose proof (served_levels sd q []
                  (level_order sd d (flat_map (pushed sd) q))) as H.
    simpl in H. rewrite app_nil_r in H. apply H.
    apply IH. apply pushed_depth. exact Hq.
Qed.

Lemma served_functional (sd : Side) (q : list tree) (v : list Z) :
  served sd q v -> forall v', served sd q v' -> v = v'.
Proof.
  induction 1 as [|t q vis Hs IH]; intros v' H'; inversion H'; subst.
  - reflexivity.
  - f_equal. apply IH. assumption.
Qed.

Lemma visits_are_level_order (dctx : DecimalContext) (self : t)
    (tr : tree) (fuel : nat) (os : list Order) :
  leaf_count self <> 0 ->
  tree_index tr = root_node self ->
  unfolds (nodes self) tr = true ->
  drain dctx fuel (orders self) = (os, Finished) ->
  visits dctx fuel (orders self)
  = level_order (side_of self) (tree_depth tr) [tr].
Proof.
  intros Hlc Hroot Hunf Hd.
  destruct (orders_is_served dctx self tr fuel os Hlc Hroot Hunf Hd)
    as [Hs _].
  eapply served_functional; [exact Hs|].
  apply level_order_served. constructor; [lia|constructor].
Qed.

(** X5. The traversal of [orders()] is level by level.  On a side with
    [leaf_count != 0] whose node graph below [root_node] unfolds into a
    tree, an iteration that runs to its end pops the root, then the two
    nodes one level below, then the nodes two levels below, and so on,
    each level with [child1] before [child0] on the buy side and
    [child0] before [child1] on the sell side; the orders are those of
    the leaves in that order. *)
Theorem orders_visits_level_by_level (dctx : DecimalContext) (self : t)
    (tr : tree) (fuel : nat) (os : list Order) :
  leaf_count self <> 0 ->
  tree_index tr = root_node self ->
  unfolds (nodes self) tr = true ->
  drain dctx fuel (orders self) = (os, Finished) ->
  visits dctx fuel (orders self)
  = level_order (side_of self) (tree_depth tr) [tr]
  /\ map id os
     = map snd
         (keys_at (nodes self)
            (level_order (side_of self) (tree_depth tr) [tr])).
Proof.
  intros Hlc Hroot Hunf Hd.
  destruct (orders_is_served dctx self tr fuel os Hlc Hroot Hunf Hd)
    as [_ Hids].
  rewrite <- (visits_are_level_order dctx self tr fuel os
                Hlc Hroot Hunf Hd).
  split; [reflexivity|exact Hids].
Qed.

Lemma orders_visits_level_by_level_witness :
  visits DefaultContext 7 (orders examples.deep_right_bids)
  = level_order BUY 3 [examples.deep_right_tree]
  /\ map id (fst (drain DefaultContext 7 (orders examples.deep_right_bids)))
     = map snd
         (keys_at (nodes examples.deep_right_bids)
                  (level_order BUY 3 [examples.deep_right_tree])).
Proof.
  apply (orders_visits_level_by_level DefaultContext
           examples.deep_right_bids examples.deep_right_tree 7).
  - vm_compute. discriminate.
  - reflexivity.
  - vm_compute. reflexivity.
  - vm_compute. reflexivity.
Defined.

(** *** Leaves on one level *)

Lemma leaves_at_depth_depth (t : tree) :
  forall d, leaves_at_depth d t = true -> tree_depth t = d.
Proof.
  induction t as [j|j l IHl r IHr|j]; intros d H.
  - destruct d as [|[|d]]; try discriminate. reflexivity.
  - destruct d as [|d]; [discriminate|].
    assert (H' : leaves_at_depth d l && leaves_at_depth d r = true).
    { destruct d; exact H. }
    apply andb_true_iff in H'. destruct H' as [Hl Hr].
    simpl. rewrite (IHl d Hl), (IHr d Hr), Nat.max_id. reflexivity.
  - destruct d as [|[|d]]; discriminate.
Qed.

Lemma level_of_leaves (slab : list layouts.Node) (sd : Side)
    (q : list tree) :
  Forall (fun t => leaves_at_depth 1 t = true) q ->
  forallb (unfolds slab) q = true ->
  keys_at slab (map tree_index q) = flat_map (side_keys slab sd) q
  /\ flat_map (pushed sd) q = [].
Proof.
  induction 1 as [|t q Ht _ IH]; intros Hunf; [split; reflexivity|].
  cbn [forallb] in Hunf. apply andb_true_iff in Hunf.
  destruct Hunf as [Hunft Hunf]. destruct (IH Hunf) as [Hk Hp].
  destruct t as [j|j l r|j]; try discriminate.
  cbn [map tree_index flat_map pushed app]. split; [|exact Hp].
  change (j :: map tree_index q) with ([j] ++ map tree_index q).
  rewrite keys_at_app, Hk. f_equal.
  unfold side_keys, keys_at. simpl in Hunft |- *.
  destruct (getitem slab j) as [e|[|c|kp koid qt ow cid|nx]];
    try discriminate.
  destruct (Side_eqb sd BUY); reflexivity.
Qed.

Lemma level_of_inner (slab : list layouts.Node) (sd : Side) (d : nat)
    (q : list tree) :
  Forall (fun t => leaves_at_depth (S (S d)) t = true) q ->
  forallb (unfolds slab) q = true ->
  keys_at slab (map tree_index q) = []
  /\ flat_map (side_keys slab sd) (flat_map (pushed sd) q)
     = flat_map (side_keys slab sd) q
  /\ Forall (fun t => leaves_at_depth (S d) t = true)
            (flat_map (pushed sd) q)
  /\ forallb (unfolds slab) (flat_map (pushed sd) q) = true.
Proof.
  induction 1 as [|t q Ht _ IH]; intros Hunf.
  - repeat split; constructor.
  - cbn [forallb] in Hunf. apply andb_true_iff in Hunf.
    destruct Hunf as [Hunft Hunf].
    destruct (IH Hunf) as (Hk & Hf & Hd & Hu).
    assert (Hpu := unfolds_pushed slab sd t Hunft).
    destruct t as [j|j l r|j]; try discriminate.
    change (leaves_at_depth (S d) l && leaves_at_depth (S d) r = true)
      in Ht.
    apply andb_true_iff in Ht. destruct Ht as [Hl Hr].
    cbn [map tree_index flat_map]. rewrite flat_map_app, forallb_app.
    rewrite Hf, Hu, Hpu.
    split; [|split; [|split; [|reflexivity]]].
    + change (j :: map tree_index q) with ([j] ++ map tree_index q).
      rewrite keys_at_app, Hk, app_nil_r.
      unfold keys_at. simpl in Hunft |- *.
      destruct (getitem slab j) as [e|[|[c0 c1]|kp koid qt ow cid|nx]];
        try discriminate. reflexivity.
    + f_equal. unfold side_keys. cbn [pushed tree_keys].
      destruct (Side_eqb sd BUY); simpl; rewrite app_nil_r;
        [rewrite rev_app_distr|]; reflexivity.
    + apply Forall_app. split; [|exact Hd].
      cbn [pushed]. destruct (Side_eqb sd BUY); repeat constructor;
        assumption.
Qed.

Lemma level_order_keys (slab : list layouts.Node) (sd : Side) :
  forall d q,
    Forall (fun t => leaves_at_depth d t = true) q ->
    forallb (unfolds slab) q = true ->
    keys_at slab (level_order sd d q) = flat_map (side_keys slab sd) q.
Proof.
  induction d as [|d IH]; intros q Hq Hunf.
  - destruct q as [|t q]; [reflexivity|].
    inversion Hq as [|? ? Ht _]; subst. discriminate.
  - cbn [level_order]. rewrite keys_at_app. destruct d as [|d].
    + destruct (level_of_leaves slab sd q Hq Hunf) as [Hk Hp].
      rewrite Hk, Hp. simpl. apply app_nil_r.
    + destruct (level_of_inner slab sd d q Hq Hunf) as (Hk & Hf & Hd & Hu).
      rewrite Hk, (IH _ Hd Hu), Hf. reflexivity.
Qed.

(** X6. When every leaf is on the same level of the tree, the level
    order is the sorted order: on a side with [leaf_count != 0] whose
    node graph below [root_node] unfolds into a tree ordered by key with
    all leaves at one depth, an iteration of [orders()] that runs to its
    end meets the leaves from the greatest key to the least on the buy
    side and from the least to the greatest on the sell side, and the
    orders carry the ids of the leaves in that order. *)
Theorem orders_sorted_on_level_trees (dctx : DecimalContext) (self : t)
    (tr : tree) (d fuel : nat) (os : list Order) :
  leaf_count self <> 0 ->
  tree_index tr = root_node self ->
  unfolds (nodes self) tr = true ->
  leaves_at_depth d tr = true ->
  key_ordered (nodes self) tr = true ->
  drain dctx fuel (orders self) = (os, Finished) ->
  keys_at (nodes self) (visits dctx fuel (orders self))
  = side_keys (nodes self) (side_of self) tr
  /\ map id os = map snd (side_keys (nodes self) (side_of self) tr)
  /\ chain (if Side_eqb (side_of self) BUY
            then fun a b => key_ltb b a else key_ltb)
           (side_keys (nodes self) (side_of self) tr) = true.
Proof.
  intros Hlc Hroot Hunf Hlevel Hord Hd.
  assert (Hk : keys_at (nodes self) (visits dctx fuel (orders self))
               = side_keys (nodes self) (side_of self) tr).
  { rewrite (visits_are_level_order dctx self tr fuel os Hlc Hroot Hunf Hd).
    rewrite (leaves_at_depth_depth tr d Hlevel).
    rewrite (level_order_keys (nodes self) (side_of self) d [tr]).
    - simpl. apply app_nil_r.
    - constructor; [exact Hlevel|constructor].
    - simpl. rewrite Hunf. reflexivity. }
  split; [exact Hk|]. split.
  - rewrite <- Hk.
    apply (orders_is_served dctx self tr fuel os Hlc Hroot Hunf Hd).
  - destruct (depth_first_keys_sorted (nodes self) tr Hunf Hord)
      as [Hsell Hbuy].
    destruct (keys_at_depth_first (nodes self) tr Hunf) as [Es Eb].
    rewrite Es in Hsell. rewrite Eb in Hbuy.
    unfold side_keys. destruct (Side_eqb (side_of self) BUY); assumption.
Qed.

Lemma orders_sorted_on_level_trees_witness :
  keys_at (nodes more_examples.level_bids)
          (visits DefaultContext 9 (orders more_examples.level_bids))
  = side_keys (nodes more_examples.level_bids)
              (side_of more_examples.level_bids) more_examples.level_tree
  /\ map id (fst (drain DefaultContext 9 (orders more_examples.level_bids)))
     = map snd (side_keys (nodes more_examples.level_bids)
                          (side_of more_examples.level_bids)
                          more_examples.level_tree)
  /\ chain (if Side_eqb (side_of more_examples.level_bids) BUY
            then fun a b => key_ltb b a else key_ltb)
           (side_keys (nodes more_examples.level_bids)
                      (side_of more_examples.level_bids)
                      more_examples.level_tree) = true.
Proof.
  apply (orders_sorted_on_level_trees DefaultContext
           more_examples.level_bids more_examples.level_tree 3 9).
  - vm_compute. discriminate.
  - reflexivity.
  - vm_compute. reflexivity.
  - reflexivity.
  - vm_compute. reflexivity.
  - vm_compute. reflexivity.
Defined.

(** ** A market with a base lot size of zero *)

Lemma div_by_zero (ctx : DecimalContext) (a b : Decimal) :
  dint b = 0 ->
  div ctx a b
  = inl (if dint a =? 0 then InvalidOperation else DivisionByZero).
Proof.
  intros H. unfold div, raise. cbv zeta. rewrite H. cbn [Z.eqb].
  destruct (dint a =? 0); reflexivity.
Qed.

Lemma pow10_raises_overflow (ctx : DecimalContext) (n : Z) (e : exn) :
  pow10 ctx n = inl e -> e = Overflow.
Proof.
  unfold pow10, ret. intros H.
  repeat match type of H with
    | (if ?b then _ else _) = _ => destruct b
    end;
    try discriminate; apply fix_raises in H; exact H.
Qed.

Lemma leaf_order_zero_base_lot (dctx : DecimalContext) (self : t)
    (sd : Side) (kp : Decimal) (koid : Z) (q : Decimal) (ow : PublicKey)
    (cid : Z) :
  dint (base_lot_size (perp_market_details self)) = 0 ->
  exists e,
    leaf_order dctx self sd kp koid q ow cid = inl e
    /\ (e = Overflow
        \/ e = (if dint (quote_lot_size (perp_market_details self)) =? 0
                then InvalidOperation else DivisionByZero)).
Proof.
  intros H. unfold leaf_order, bind. cbv zeta.
  destruct (pow10 dctx _) as [e|ntu] eqn:E.
  - exists e. split; [reflexivity|]. left.
    eapply pow10_raises_overflow. exact E.
  - rewrite (div_by_zero dctx _ _ H). eexists. split; [reflexivity|].
    right. reflexivity.
Qed.

(** What an iteration raises is something one of its pieces raised. *)
Lemma drain_Failed (dctx : DecimalContext) (Inv : generator -> Prop)
    (R : exn -> Prop) :
  (forall g s g', Inv g -> resume dctx g = (s, g') ->
                  Inv g' /\ (forall e, s = Raise e -> R e)) ->
  forall fuel g os e,
    Inv g -> drain dctx fuel g = (os, Failed e) -> R e.
Proof.
  intros Hstep fuel.
  induction fuel as [|fuel IH]; intros g os e Hg Hd; simpl in Hd.
  - discriminate.
  - destruct (resume dctx g) as [s g'] eqn:Hr.
    destruct (Hstep g s g' Hg Hr) as [Hg' Hy].
    destruct s.
    + destruct (drain dctx fuel g') as [os' out'] eqn:Hd'.
      injection Hd as <- ->. apply (IH g' os' e Hg' Hd').
    + apply (IH g' os e Hg' Hd).
    + discriminate.
    + injection Hd as <- <-. apply Hy. reflexivity.
Qed.

(** X7. In a market whose base lot size is zero, [orders()] never
    yields an order: the division [quote_lot_size / base_lot_size] of
    the first leaf it meets raises [DivisionByZero], or
    [InvalidOperation] when the quote lot size is zero too; so an
    iteration over a tree that has a leaf does not end normally. *)
Theorem orders_fails_on_zero_base_lot (dctx : DecimalContext) (self : t)
    (fuel : nat) (os : list Order) (out : outcome) :
  dint (base_lot_size (perp_market_details self)) = 0 ->
  drain dctx fuel (orders self) = (os, out) ->
  os = []
  /\ (forall e,
         out = Failed e ->
         e = IndexError \/ e = Overflow
         \/ e = (if dint (quote_lot_size (perp_market_details self)) =? 0
                 then InvalidOperation else DivisionByZero))
  /\ (forall tr,
         leaf_count self <> 0 ->
         tree_index tr = root_node self ->
         unfolds (nodes self) tr = true ->
         tree_keys (nodes self) tr <> [] ->
         out <> Finished).
Proof.
  intros Hzero Hd.
  assert (Hos : os = []).
  { assert (H : Forall (fun _ => False) os).
    { revert Hd. apply (drain_Forall dctx (iterates self)); [|reflexivity].
      intros g s g' Hg Hr. split; [eapply iterates_step; eassumption|].
      intros o ->.
      destruct (iterates_yield dctx self g g' o Hg Hr)
        as (kp & koid & q & ow & cid & sd & _ & _ & Hl).
      destruct (leaf_order_zero_base_lot dctx self sd kp koid q ow cid Hzero)
        as (e & He & _).
      congruence. }
    destruct os as [|o os]; [reflexivity|]. inversion H; contradiction. }
  split; [exact Hos|]. split.
  - intros e ->.
    refine (drain_Failed dctx (iterates self)
              (fun e =>
                 e = IndexError \/ e = Overflow
                 \/ e = (if dint (quote_lot_size (perp_market_details self))
                            =? 0
                         then InvalidOperation else DivisionByZero))
              _ fuel (orders self) os e _ Hd); [|reflexivity].
    intros g s g' Hg Hr. split; [eapply iterates_step; eassumption|].
    intros e' ->.
    destruct g as [s0|s0 sd st|]; simpl in Hg.
    + unfold resume in Hr. destruct (leaf_count s0 =? 0); discriminate.
    + destruct Hg as [-> _]. unfold resume in Hr.
      destruct (pop st) as [[st' index]|]; [|discriminate].
      destruct (getitem (nodes self) index) as [e0|node] eqn:Hget.
      * injection Hr as <- _. left. eapply getitem_raises. exact Hget.
      * destruct node as [|[c0 c1]|kp koid q ow cid|nx]; try discriminate.
        -- destruct (Side_eqb sd BUY); discriminate.
        -- destruct (leaf_order_zero_base_lot dctx self sd kp koid q ow cid
                       Hzero) as (e0 & He0 & Hkind).
           rewrite He0 in Hr. injection Hr as <- _. right. exact Hkind.
    + simpl in Hr. discriminate.
  - intros tr Hlc Hroot Hunf Hleaf ->. subst os.
    assert (Hp := finished_ids_of_leaves dctx self tr fuel [] Hlc Hroot
                    Hunf Hd).
    apply Permutation_length in Hp. rewrite length_map in Hp.
    destruct (tree_keys (nodes self) tr); [congruence|discriminate].
Qed.

Lemma orders_fails_on_zero_base_lot_witness :
  fst (drain DefaultContext 3 (orders more_examples.zero_base_lot)) = []
  /\ (forall e,
         Failed DivisionByZero = Failed e ->
         e = IndexError \/ e = Overflow
         \/ e = (if dint (quote_lot_size
                            (perp_market_details more_examples.zero_base_lot))
                    =? 0
                 then InvalidOperation else DivisionByZero))
  /\ (forall tr,
         leaf_count more_examples.zero_base_lot <> 0 ->
         tree_index tr = root_node more_examples.zero_base_lot ->
         unfolds (nodes more_examples.zero_base_lot) tr = true ->
         tree_keys (nodes more_examples.zero_base_lot) tr <> [] ->
         Failed DivisionByZero <> Finished).
Proof.
  apply (orders_fails_on_zero_base_lot DefaultContext
           more_examples.zero_base_lot 3).
  - reflexivity.
  - vm_compute. reflexivity.
Defined.

(** ** What construction does to the world *)

Lemma nth_error_snoc_before {A : Type} (l : list A) (x y : A) :
  nth_error ((l ++ [x]) ++ [y]) (List.length l) = Some x.
Proof.
  rewrite nth_error_app1 by (rewrite length_app; simpl; lia).
  apply nth_error_snoc.
Qed.

Lemma nth_error_keep {A : Type} (l : list A) (x a : A) (i : nat) :
  nth_error l i = Some a -> nth_error (l ++ [x]) i = Some a.
Proof.
  intros H. rewrite nth_error_app1; [exact H|].
  apply nth_error_Some. congruence.
Qed.

(** X8. A successful [build_perp_orderbook_side_watcher] adds exactly
    one subscription to the manager and one entry, named
    ["orderbook_side_subscription"], to the health check, both for the
    subscription it has created.  That subscription is for the address
    of the side asked for, and its publisher has two subscribers: the
    returned observer first, and then the health check under that name.
    One observer is allocated, no notification is recorded, and every
    subscription and observer that existed before is as it was. *)
Theorem build_registers_one_subscription (PerpOrderBookSide item : Type)
    (PerpOrderBookSide_parse
      : Context -> AccountInfo -> PerpMarketDetails
        -> result PerpOrderBookSide)
    (PerpOrderBookSide_orders : PerpOrderBookSide -> result item)
    (context : Context) (w w' : World item) (perp_market : PerpMarket)
    (side : OrderBookSideType) (watcher : ref) :
  build_perp_orderbook_side_watcher PerpOrderBookSide_parse
    PerpOrderBookSide_orders context w perp_market side
  = (inr watcher, w') ->
  manager w' = manager w ++ [List.length (subscriptions w)]
  /\ health_check w'
     = health_check w
       ++ [("orderbook_side_subscription", List.length (subscriptions w))]
  /\ nth_error (subscriptions w') (List.length (subscriptions w))
     = Some (mkSubscription (watched_address perp_market side)
               (underlying_perp_market perp_market)
               [Observer watcher;
                HealthCheckPing "orderbook_side_subscription"])
  /\ List.length (subscriptions w') = S (List.length (subscriptions w))
  /\ List.length (observers w') = S (List.length (observers w))
  /\ pings w' = pings w
  /\ (forall i s, nth_error (subscriptions w) i = Some s ->
                  nth_error (subscriptions w') i = Some s)
  /\ (forall i o, nth_error (observers w) i = Some o ->
                  nth_error (observers w') i = Some o).
Proof.
  intros H.
  destruct (build_effect _ _ context w w' perp_market side watcher H)
    as (info & initial & x & _ & _ & _ & -> & ->).
  cbn [observers subscriptions manager health_check pings].
  rewrite !length_app. cbn [List.length].
  repeat split; try reflexivity; try lia.
  - apply nth_error_snoc.
  - intros i s. apply nth_error_keep.
  - intros i o. apply nth_error_keep.
Qed.

Lemma build_registers_one_subscription_witness :
  exists w',
    build_perp_orderbook_side_watcher examples.lazy_parse
      examples.lazy_orders examples.ledger examples.empty_world
      examples.market BIDS = (inr 0%nat, w')
    /\ manager w' = [0%nat]
    /\ health_check w' = [("orderbook_side_subscription", 0%nat)]
    /\ nth_error (subscriptions w') 0%nat
       = Some (mkSubscription "BidsAddress"
                 (underlying_perp_market examples.market)
                 [Observer 0%nat;
                  HealthCheckPing "orderbook_side_subscription"])
    /\ List.length (subscriptions w') = 1%nat
    /\ List.length (observers w') = 1%nat
    /\ pings w' = [].
Proof.
  eexists. split; [vm_compute; reflexivity|].
  destruct (build_registers_one_subscription _ _ examples.lazy_parse
              examples.lazy_orders examples.ledger examples.empty_world
              _ examples.market BIDS 0%nat eq_refl)
    as (H1 & H2 & H3 & H4 & H5 & H6 & _).
  repeat split; assumption.
Defined.

(** X9. [build_perp_orderbook_side_watcher] raises at one of three
    places.  When the fetch finds no account or
    [PerpOrderBookSide.parse] raises, nothing has been done yet and the
    world is as it was.  When [orders()] of the decoded side raises,
    the subscription has already been created and added to the
    manager: it stays behind, with no subscriber, no observer and no
    entry in the health check.  The builder returns a watcher exactly
    when the fetch, the parse and the call of [orders()] all succeed. *)
Theorem build_fails_before_or_after_subscribing
    (PerpOrderBookSide item : Type)
    (PerpOrderBookSide_parse
      : Context -> AccountInfo -> PerpMarketDetails
        -> result PerpOrderBookSide)
    (PerpOrderBookSide_orders : PerpOrderBookSide -> result item)
    (context : Context) (w : World item) (perp_market : PerpMarket)
    (side : OrderBookSideType) :
  (forall e w',
      build_perp_orderbook_side_watcher PerpOrderBookSide_parse
        PerpOrderBookSide_orders context w perp_market side
      = (inl e, w') ->
      (w' = w
       /\ ((AccountInfo_load context (watched_address perp_market side)
            = None
            /\ e = Exception
                     (could_not_find_message
                        (watched_address perp_market side)))
           \/ exists info,
                AccountInfo_load context (watched_address perp_market side)
                = Some info
                /\ PerpOrderBookSide_parse context info
                     (underlying_perp_market perp_market) = inl e))
      \/ (exists info initial,
             AccountInfo_load context (watched_address perp_market side)
             = Some info
             /\ PerpOrderBookSide_parse context info
                  (underlying_perp_market perp_market) = inr initial
             /\ PerpOrderBookSide_orders initial = inl e
             /\ w' = mkWorld (observers w)
                       (subscriptions w
                        ++ [mkSubscription (watched_address perp_market side)
                              (underlying_perp_market perp_market) []])
                       (manager w ++ [List.length (subscriptions w)])
                       (health_check w) (pings w)))
  /\ ((exists watcher w',
          build_perp_orderbook_side_watcher PerpOrderBookSide_parse
            PerpOrderBookSide_orders context w perp_market side
          = (inr watcher, w'))
      <-> exists info initial initial_orders,
            AccountInfo_load context (watched_address perp_market side)
            = Some info
            /\ PerpOrderBookSide_parse context info
                 (underlying_perp_market perp_market) = inr initial
            /\ PerpOrderBookSide_orders initial = inr initial_orders).
Proof.
  split.
  - intros e w'. unfold build_perp_orderbook_side_watcher.
    fold (watched_address perp_market side).
    destruct (AccountInfo_load context (watched_address perp_market side))
      as [info|].
    + destruct (PerpOrderBookSide_parse context info _) as [e0|initial]
        eqn:Hp.
      * intros H. injection H as <- <-. left. split; [reflexivity|].
        right. exists info. split; [reflexivity|exact Hp].
      * unfold new_subscription, manager_add.
        cbn [observers subscriptions manager health_check pings].
        destruct (PerpOrderBookSide_orders initial) as [e0|x] eqn:Ho.
        -- intros H. injection H as <- <-. right.
           exists info, initial.
           split; [reflexivity|]. split; [exact Hp|].
           split; [exact Ho|reflexivity].
        -- destruct (new_observer _ _) as [o w3]. discriminate.
    + intros H. injection H as <- <-. left. split; [reflexivity|].
      left. split; reflexivity.
  - split.
    + intros (watcher & w' & H).
      destruct (build_effect _ _ context w w' perp_market side watcher H)
        as (info & initial & x & Hl & Hp & Ho & _).
      exists info, initial, x. auto.
    + intros (info & initial & x & Hl & Hp & Ho).
      unfold build_perp_orderbook_side_watcher.
      fold (watched_address perp_market side).
      rewrite Hl, Hp.
      destruct (new_subscription w _ _) as [s w1].
      rewrite Ho.
      destruct (new_observer _ _) as [o w3].
      eexists. eexists. reflexivity.
Qed.

Lemma build_fails_before_or_after_subscribing_witness :
  (mkWorld (@nil (LatestItemObserverSubscriber (list Order)))
           [mkSubscription "BidsAddress"
              (underlying_perp_market examples.zero_lot_market) []]
           [0%nat] [] []
   = examples.empty_world
   /\ ((AccountInfo_load examples.ledger
          (watched_address examples.zero_lot_market BIDS) = None
        /\ DivisionByZero
           = Exception
               (could_not_find_message
                  (watched_address examples.zero_lot_market BIDS)))
       \/ exists info,
            AccountInfo_load examples.ledger
              (watched_address examples.zero_lot_market BIDS) = Some info
            /\ examples.lazy_parse examples.ledger info
                 (underlying_perp_market examples.zero_lot_market)
               = inl DivisionByZero))
  \/ (exists info initial,
         AccountInfo_load examples.ledger
           (watched_address examples.zero_lot_market BIDS) = Some info
         /\ examples.lazy_parse examples.ledger info
              (underlying_perp_market examples.zero_lot_market)
            = inr initial
         /\ examples.eager_orders initial = inl DivisionByZero
         /\ mkWorld (@nil (LatestItemObserverSubscriber (list Order)))
                    [mkSubscription "BidsAddress"
                       (underlying_perp_market examples.zero_lot_market) []]
                    [0%nat] [] []
            = mkWorld (observers examples.empty_world)
                (subscriptions (@examples.empty_world (list Order))
                 ++ [mkSubscription
                       (watched_address examples.zero_lot_market BIDS)
                       (underlying_perp_market examples.zero_lot_market) []])
                (manager (@examples.empty_world (list Order))
                 ++ [List.length
                       (subscriptions (@examples.empty_world (list Order)))])
                (health_check (@examples.empty_world (list Order)))
                (pings (@examples.empty_world (list Order)))).
Proof.
  apply (proj1 (build_fails_before_or_after_subscribing _ _
                  examples.lazy_parse examples.eager_orders examples.ledger
                  examples.empty_world examples.zero_lot_market BIDS)).
  vm_compute. reflexivity.
Defined.

(** ** When the iteration runs to its end *)

Lemma getitem_In {A : Type} (l : list A) (i : Z) (a : A) :
  getitem l i = inr a -> In a l.
Proof.
  unfold getitem, ret, raise. cbv zeta.
  destruct (_ && _); [|discriminate].
  destruct (nth_error _ _) eqn:Hn; [|discriminate].
  intros H. injection H as <-. eapply nth_error_In. exact Hn.
Qed.

(** X11. On a side whose node graph below [root_node] unfolds into a
    tree, [orders()] runs to its end with no exception, within
    [tree_size + 2] steps, as soon as the scaling of price and quantity
    succeeds for every leaf of the slab; it has then yielded one order
    for each leaf of the tree when [leaf_count != 0], and none
    otherwise. *)
Theorem orders_completes_when_scaling_succeeds (dctx : DecimalContext)
    (self : t) (tr : tree) :
  tree_index tr = root_node self ->
  unfolds (nodes self) tr = true ->
  (forall kp koid q ow cid,
      In (layouts.Leaf kp koid q ow cid) (nodes self) ->
      exists o, leaf_order dctx self (side_of self) kp koid q ow cid = inr o) ->
  exists os,
    drain dctx (tree_size tr + 2) (orders self) = (os, Finished)
    /\ (leaf_count self <> 0 ->
        Permutation (map id os) (map snd (tree_keys (nodes self) tr)))
    /\ (leaf_count self = 0 -> os = []).
Proof.
  intros Hroot Hunf Hscale.
  assert (Hrun : exists os out,
             drain dctx (tree_size tr + 2) (orders self) = (os, out)
             /\ out <> Unfinished /\ out <> Failed IndexError).
  { replace (tree_size tr + 2)%nat with (S (S (tree_size tr))) by lia.
    rewrite drain_S. unfold orders, resume.
    destruct (leaf_count self =? 0).
    - exists [], Finished. split; [reflexivity|]. split; discriminate.
    - destruct (drain_stack_terminates dctx self (side_of self)
                  (S (tree_size tr)) [tr] [root_node self])
        as (os & out & Hd & H1 & H2 & _).
      + constructor; [exact Hroot|constructor].
      + simpl. rewrite Hunf. reflexivity.
      + simpl. lia.
      + exists os, out. auto. }
  destruct Hrun as (os & out & Hd & Hfin & Hidx).
  assert (Hout : out = Finished).
  { destruct out as [|e|]; [reflexivity| |congruence].
    exfalso. apply Hidx. f_equal.
    refine (drain_Failed dctx (iterates self) (fun e => e = IndexError)
              _ _ (orders self) os e _ Hd); [|reflexivity].
    intros g s g' Hg Hr. split; [eapply iterates_step; eassumption|].
    intros e' ->.
    destruct g as [s0|s0 sd st|]; simpl in Hg.
    - unfold resume in Hr. destruct (leaf_count s0 =? 0); discriminate.
    - destruct Hg as [-> Hsd]. unfold resume in Hr.
      destruct (pop st) as [[st' index]|]; [|discriminate].
      destruct (getitem (nodes self) index) as [e0|node] eqn:Hget.
      + injection Hr as <- _. eapply getitem_raises. exact Hget.
      + destruct node as [|[c0 c1]|kp koid q ow cid|nx]; try discriminate.
        * destruct (Side_eqb sd BUY); discriminate.
        * apply getitem_In in Hget.
          destruct (Hscale kp koid q ow cid Hget) as [o Ho].
          unfold side_of in Ho. rewrite <- Hsd in Ho.
          rewrite Ho in Hr. discriminate.
    - simpl in Hr. discriminate. }
  subst out. exists os. split; [exact Hd|]. split.
  - intros Hlc.
    apply (finished_ids_of_leaves dctx self tr _ os Hlc Hroot Hunf Hd).
  - intros Hlc.
    replace (tree_size tr + 2)%nat with (S (S (tree_size tr))) in Hd by lia.
    rewrite drain_S in Hd. unfold orders, resume in Hd.
    rewrite Hlc in Hd. simpl in Hd. congruence.
Qed.

Lemma orders_completes_when_scaling_succeeds_witness :
  exists os,
    drain DefaultContext (tree_size examples.deep_right_tree + 2)
          (orders examples.deep_right_bids) = (os, Finished)
    /\ (leaf_count examples.deep_right_bids <> 0 ->
        Permutation (map id os)
          (map snd (tree_keys (nodes examples.deep_right_bids)
                              examples.deep_right_tree)))
    /\ (leaf_count examples.deep_right_bids = 0 -> os = []).
Proof.
  apply (orders_completes_when_scaling_succeeds DefaultContext
           examples.deep_right_bids examples.deep_right_tree).
  - reflexivity.
  - vm_compute. reflexivity.
  - intros kp koid q ow cid H. simpl in H.
    repeat (destruct H as [H|H]; try discriminate H);
      try contradiction;
      injection H as <- <- <- <- <-; eexists; vm_compute; reflexivity.
Defined.

(** ** What the iteration reads of a side *)

(** X12. [orders()] reads five things of a side: the data type of the
    header, [root_node], [nodes], the market details, and whether
    [leaf_count] is zero.  Two sides that agree on these yield the same
    orders and end the same way, whatever their account, version, bump
    index, free list and non-zero leaf count are. *)
Theorem orders_reads_root_slab_and_details (dctx : DecimalContext)
    (a b : t) (fuel : nat) :
  same_book a b ->
  drain dctx fuel (orders a) = drain dctx fuel (orders b).
Proof.
  intros H. apply drain_same. exact H.
Qed.

Lemma orders_reads_root_slab_and_details_witness :
  drain DefaultContext 7 (orders examples.deep_right_bids)
  = drain DefaultContext 7 (orders more_examples.stale_header).
Proof.
  apply (orders_reads_root_slab_and_details DefaultContext
           examples.deep_right_bids more_examples.stale_header 7).
  repeat split.
Defined.

(** ** The inventory watcher of a Serum market *)

(** One statement of the builder: its effect on the world, with the
    fields of the world before it worked out. *)
Ltac inventory_step E :=
  unfold SerumInventory.new_subscription, SerumInventory.manager_add,
    SerumInventory.new_observer, SerumInventory.publisher_subscribe,
    SerumInventory.add_disposable in E;
  cbn [SerumInventory.observers SerumInventory.subscriptions
       SerumInventory.manager SerumInventory.health_check
       SerumInventory.disposer] in E;
  try rewrite nth_error_snoc in E;
  cbn [SerumInventory.subscription_address
       SerumInventory.subscription_token SerumInventory.subscribers app] in E;
  try rewrite store_set_snoc in E;
  injection E as <- <-.

(** X13. [build_serum_inventory_watcher] is not all-or-nothing.  When
    the wallet has no token account for the base token it raises and
    the world is as it was.  When it has one for the base token and
    none for the quote token it raises too, but by then the
    subscription for the base account has been created, added to the
    manager and subscribed to by a new observer, and its disposable
    has been handed to the disposer: all of that stays behind.  The
    health check is touched in neither case. *)
Theorem serum_inventory_failure_leaves_base_subscription
    (TokenValue : Type)
    (fetch : Context -> PublicKey -> Token
             -> option (SerumInventory.TokenAccount TokenValue))
    (Token_str : Token -> string) (context : Context)
    (w : SerumInventory.World TokenValue) (wallet : SerumInventory.Wallet)
    (market : SerumInventory.Market) :
  (fetch context (SerumInventory.wallet_address wallet)
         (SerumInventory.base market) = None ->
   SerumInventory.build_serum_inventory_watcher fetch Token_str
     context w wallet market
   = (inl (Exception
             (SerumInventory.could_not_find_message Token_str
                (SerumInventory.wallet_address wallet) "base"
                (SerumInventory.base market))),
      w))
  /\ (forall base_account,
         fetch context (SerumInventory.wallet_address wallet)
               (SerumInventory.base market) = Some base_account ->
         fetch context (SerumInventory.wallet_address wallet)
               (SerumInventory.quote market) = None ->
         exists w',
           SerumInventory.build_serum_inventory_watcher fetch
             Token_str context w wallet market
           = (inl (Exception
                     (SerumInventory.could_not_find_message Token_str
                        (SerumInventory.wallet_address wallet) "quote"
                        (SerumInventory.quote market))),
              w')
           /\ SerumInventory.manager w'
              = SerumInventory.manager w
                ++ [List.length (SerumInventory.subscriptions w)]
           /\ SerumInventory.subscriptions w'
              = SerumInventory.subscriptions w
                ++ [SerumInventory.mkSubscription
                      (SerumInventory.ta_address base_account)
                      (SerumInventory.base market)
                      [List.length (SerumInventory.observers w)]]
           /\ SerumInventory.observers w'
              = SerumInventory.observers w ++ [base_account]
           /\ SerumInventory.disposer w'
              = SerumInventory.disposer w
                ++ [SerumInventory.mkDisposable
                      (List.length (SerumInventory.subscriptions w))
                      (List.length (SerumInventory.observers w))]
           /\ SerumInventory.health_check w' = SerumInventory.health_check w
           /\ w' <> w).
Proof.
  split.
  - intros H. unfold SerumInventory.build_serum_inventory_watcher.
    rewrite H. reflexivity.
  - intros base_account Hb Hq.
    unfold SerumInventory.build_serum_inventory_watcher.
    rewrite Hb, Hq. cbv beta iota zeta.
    destruct (SerumInventory.new_subscription w
                (SerumInventory.ta_address base_account)
                (SerumInventory.base market)) as [s1 w1] eqn:E1.
    destruct (SerumInventory.new_observer
                (SerumInventory.manager_add w1 s1) base_account)
      as [o1 w3] eqn:E3.
    destruct (SerumInventory.publisher_subscribe w3 s1 o1)
      as [d1 w4] eqn:E4.
    eexists. split; [reflexivity|].
    inventory_step E1. inventory_step E3. inventory_step E4.
    cbn [SerumInventory.observers SerumInventory.subscriptions
         SerumInventory.manager SerumInventory.health_check
         SerumInventory.disposer SerumInventory.add_disposable].
    repeat split.
    intros E.
    apply (f_equal (fun x => List.length (SerumInventory.manager x))) in E.
    cbv beta in E.
    cbn [SerumInventory.manager SerumInventory.add_disposable] in E.
    rewrite length_app in E. simpl in E. lia.
Qed.

Lemma serum_inventory_failure_leaves_base_subscription_witness :
  exists w',
    SerumInventory.build_serum_inventory_watcher
      more_examples.base_only symbol examples.ledger
      more_examples.no_token_watchers more_examples.wallet
      more_examples.serum_market
    = (inl (Exception
              (SerumInventory.could_not_find_message symbol
                 (SerumInventory.wallet_address more_examples.wallet) "quote"
                 (SerumInventory.quote more_examples.serum_market))),
       w')
    /\ SerumInventory.manager w'
       = SerumInventory.manager more_examples.no_token_watchers
         ++ [List.length
               (SerumInventory.subscriptions more_examples.no_token_watchers)]
    /\ SerumInventory.subscriptions w'
       = SerumInventory.subscriptions more_examples.no_token_watchers
         ++ [SerumInventory.mkSubscription
               (SerumInventory.ta_address
                  (SerumInventory.mkTokenAccount "BaseAccount"
                                                 (of_int 5)))
               (SerumInventory.base more_examples.serum_market)
               [List.length
                  (SerumInventory.observers more_examples.no_token_watchers)]]
    /\ SerumInventory.observers w'
       = SerumInventory.observers more_examples.no_token_watchers
         ++ [SerumInventory.mkTokenAccount "BaseAccount" (of_int 5)]
    /\ SerumInventory.disposer w'
       = SerumInventory.disposer more_examples.no_token_watchers
         ++ [SerumInventory.mkDisposable
               (List.length
                  (SerumInventory.subscriptions
                     more_examples.no_token_watchers))
               (List.length
                  (SerumInventory.observers more_examples.no_token_watchers))]
    /\ SerumInventory.health_check w'
       = SerumInventory.health_check more_examples.no_token_watchers
    /\ w' <> more_examples.no_token_watchers.
Proof.
  apply (proj2 (serum_inventory_failure_leaves_base_subscription Decimal
                  more_examples.base_only symbol examples.ledger
                  more_examples.no_token_watchers more_examples.wallet
                  more_examples.serum_market)).
  - reflexivity.
  - reflexivity.
Defined.

(** X14. When the wallet has token accounts for both tokens,
    [build_serum_inventory_watcher] adds two subscriptions to the
    manager, the one for the base account first, hands two disposables
    to the disposer and leaves the health check alone.  The accessor of
    the returned watcher reads the two observers each time it runs: it
    gives the inventory of the two fetched accounts at first, and after
    an update of either observer the inventory with the value of the
    new item and the unchanged value of the other. *)
Theorem serum_inventory_reads_latest_accounts
    (TokenValue : Type)
    (fetch : Context -> PublicKey -> Token
             -> option (SerumInventory.TokenAccount TokenValue))
    (Token_str : Token -> string) (context : Context)
    (w : SerumInventory.World TokenValue) (wallet : SerumInventory.Wallet)
    (market : SerumInventory.Market)
    (base_account quote_account : SerumInventory.TokenAccount TokenValue) :
  fetch context (SerumInventory.wallet_address wallet)
        (SerumInventory.base market) = Some base_account ->
  fetch context (SerumInventory.wallet_address wallet)
        (SerumInventory.quote market) = Some quote_account ->
  exists watcher w',
    SerumInventory.build_serum_inventory_watcher fetch Token_str
      context w wallet market
    = (inr watcher, w')
    /\ SerumInventory.manager w'
       = SerumInventory.manager w
         ++ [List.length (SerumInventory.subscriptions w);
             S (List.length (SerumInventory.subscriptions w))]
    /\ List.length (SerumInventory.disposer w')
       = S (S (List.length (SerumInventory.disposer w)))
    /\ SerumInventory.health_check w' = SerumInventory.health_check w
    /\ SerumInventory.serum_inventory_accessor w' watcher
       = Some (SerumInventory.mkInventory SerumInventory.SPL_TOKENS
                 (SerumInventory.value base_account)
                 (SerumInventory.value quote_account))
    /\ (forall item,
           SerumInventory.serum_inventory_accessor
             (SerumInventory.on_next w'
                (SerumInventory.latest_base_token_account_observer watcher)
                item)
             watcher
           = Some (SerumInventory.mkInventory
                     SerumInventory.SPL_TOKENS
                     (SerumInventory.value item)
                     (SerumInventory.value quote_account)))
    /\ (forall item,
           SerumInventory.serum_inventory_accessor
             (SerumInventory.on_next w'
                (SerumInventory.latest_quote_token_account_observer watcher)
                item)
             watcher
           = Some (SerumInventory.mkInventory
                     SerumInventory.SPL_TOKENS
                     (SerumInventory.value base_account)
                     (SerumInventory.value item))).
Proof.
  intros Hb Hq.
  unfold SerumInventory.build_serum_inventory_watcher.
  rewrite Hb, Hq. cbv beta iota zeta.
  destruct (SerumInventory.new_subscription w
              (SerumInventory.ta_address base_account)
              (SerumInventory.base market)) as [s1 w1] eqn:E1.
  destruct (SerumInventory.new_observer
              (SerumInventory.manager_add w1 s1) base_account)
    as [o1 w3] eqn:E3.
  destruct (SerumInventory.publisher_subscribe w3 s1 o1) as [d1 w4] eqn:E4.
  destruct (SerumInventory.new_subscription
              (SerumInventory.add_disposable w4 d1)
              (SerumInventory.ta_address quote_account)
              (SerumInventory.quote market)) as [s2 w5] eqn:E5.
  destruct (SerumInventory.new_observer
              (SerumInventory.manager_add w5 s2) quote_account)
    as [o2 w7] eqn:E7.
  destruct (SerumInventory.publisher_subscribe w7 s2 o2) as [d2 w8] eqn:E8.
  do 2 eexists. split; [reflexivity|].
  inventory_step E1. inventory_step E3. inventory_step E4.
  inventory_step E5. inventory_step E7. inventory_step E8.
  unfold SerumInventory.serum_inventory_accessor, SerumInventory.on_next.
  cbn [SerumInventory.observers SerumInventory.subscriptions
       SerumInventory.manager SerumInventory.health_check
       SerumInventory.disposer SerumInventory.add_disposable
       SerumInventory.latest_base_token_account_observer
       SerumInventory.latest_quote_token_account_observer].
  split; [rewrite <- app_assoc, length_app; simpl; rewrite Nat.add_1_r;
          reflexivity|].
  split; [rewrite !length_app; simpl; lia|].
  split; [reflexivity|].
  split; [|split].
  - rewrite nth_error_snoc_before, nth_error_snoc. reflexivity.
  - intros item.
    assert (E : store_set
                  ((SerumInventory.observers w ++ [base_account])
                   ++ [quote_account])
                  (List.length (SerumInventory.observers w)) item
                = (SerumInventory.observers w ++ [item]) ++ [quote_account]).
    { clear. induction (SerumInventory.observers w) as [|a l IH];
        simpl; [reflexivity|]. now rewrite IH. }
    rewrite E, nth_error_snoc_before.
    replace (List.length (SerumInventory.observers w ++ [base_account]))
      with (List.length (SerumInventory.observers w ++ [item]))
      by (rewrite !length_app; reflexivity).
    rewrite nth_error_snoc. reflexivity.
  - intros item. rewrite store_set_snoc.
    rewrite nth_error_snoc_before, nth_error_snoc. reflexivity.
Qed.

Lemma serum_inventory_reads_latest_accounts_witness :
  exists watcher w',
    SerumInventory.build_serum_inventory_watcher
      more_examples.base_and_quote symbol examples.ledger
      more_examples.no_token_watchers more_examples.wallet
      more_examples.serum_market
    = (inr watcher, w')
    /\ SerumInventory.manager w' = [0%nat; 1%nat]
    /\ List.length (SerumInventory.disposer w') = 2%nat
    /\ SerumInventory.health_check w' = []
    /\ SerumInventory.serum_inventory_accessor w' watcher
       = Some (SerumInventory.mkInventory SerumInventory.SPL_TOKENS
                 (of_int 5) (of_int 70))
    /\ (forall item,
           SerumInventory.serum_inventory_accessor
             (SerumInventory.on_next w'
                (SerumInventory.latest_base_token_account_observer watcher)
                item)
             watcher
           = Some (SerumInventory.mkInventory
                     SerumInventory.SPL_TOKENS
                     (SerumInventory.value item) (of_int 70)))
    /\ (forall item,
           SerumInventory.serum_inventory_accessor
             (SerumInventory.on_next w'
                (SerumInventory.latest_quote_token_account_observer watcher)
                item)
             watcher
           = Some (SerumInventory.mkInventory
                     SerumInventory.SPL_TOKENS
                     (of_int 5) (SerumInventory.value item))).
Proof.
  apply (serum_inventory_reads_latest_accounts Decimal
           more_examples.base_and_quote symbol examples.ledger
           more_examples.no_token_watchers more_examples.wallet
           more_examples.serum_market
           (SerumInventory.mkTokenAccount "BaseAccount" (of_int 5))
           (SerumInventory.mkTokenAccount "QuoteAccount" (of_int 70))).
  - reflexivity.
  - reflexivity.
Defined.
